(** * deepseek-polish: the Netlify function that proxies a dictation
      transcript to the DeepSeek chat-completion API

    Shallow embedding of [netlify/functions/deepseek-polish.js].

    - JavaScript strings are sequences of UTF-16 code units ([jstring]).
    - Values produced by [JSON.parse] are the inductive [Value]; objects are
      association lists in source order, a later duplicate key winning, as
      [JSON.parse] overwrites.
    - Exceptions are explicit ([Completion]); the [async] handler runs in a
      small monad that also logs every [fetch] it issues.
    - The two engine algorithms whose results the handler never inspects,
      [Number::toString] and the rendering [String(e)] of an error, and the
      depth of recursion the engine's call stack allows, are the methods of
      the class [Runtime]. *)

From Stdlib Require Import List NArith ZArith String Ascii Bool Lia DecimalString.
Import ListNotations.

Local Open Scope N_scope.
Set Warnings "-register-all".

(* ================================================================== *)
(** ** Strings *)

Definition codeunit := N.
Definition jstring := list codeunit.

(** An ASCII literal as a JavaScript string. *)
Definition js (s : string) : jstring :=
  map N_of_ascii (list_ascii_of_string s).
Arguments js s%_string.

Fixpoint jstring_eqb (a b : jstring) : bool :=
  match a, b with
  | [], [] => true
  | x :: a', y :: b' => (x =? y) && jstring_eqb a' b'
  | _, _ => false
  end.

(** A literal in which the apostrophe stands for the quotation mark, to
    write JSON texts. *)
Definition jsq (s : string) : jstring :=
  map (fun c => if c =? 39 then 34 else c) (js s).
Arguments jsq s%_string.

(** [s1 + s2 + ...]: concatenation of string pieces. *)
Definition cat (pieces : list jstring) : jstring := List.concat pieces.

(** [Array.prototype.join] on an array of strings. *)
Fixpoint join_strings (sep : jstring) (l : list jstring) : jstring :=
  match l with
  | [] => []
  | [s] => s
  | s :: r => s ++ sep ++ join_strings sep r
  end.

(** The code units [String.prototype.trim] strips: ECMAScript WhiteSpace
    and LineTerminator. *)
Definition is_trim_space (c : codeunit) : bool :=
  ((9 <=? c) && (c <=? 13)) || (c =? 32) || (c =? 160) || (c =? 5760)
  || ((8192 <=? c) && (c <=? 8202)) || (c =? 8232) || (c =? 8233)
  || (c =? 8239) || (c =? 8287) || (c =? 12288) || (c =? 65279).

Fixpoint drop_space (s : jstring) : jstring :=
  match s with
  | [] => []
  | c :: r => if is_trim_space c then drop_space r else s
  end.

Definition trim (s : jstring) : jstring :=
  rev (drop_space (rev (drop_space s))).

(** A string that is empty or begins with a code unit [trim] keeps. *)
Definition starts_clean (s : jstring) : Prop :=
  match s with
  | [] => True
  | c :: _ => is_trim_space c = false
  end.

(** What trimming [s] must give, said without [trim]: [out] is [s] less a
    prefix and a suffix of white space, and neither begins nor ends with
    white space. *)
Definition trimmed_from (s out : jstring) : Prop :=
  exists pre post,
    s = pre ++ out ++ post /\
    forallb is_trim_space pre = true /\
    forallb is_trim_space post = true /\
    starts_clean out /\ starts_clean (rev out).

(* ================================================================== *)
(** ** Values *)

(** A JSON number literal [(-1)^neg * mant * 10^exp10], kept exact.  The
    handler does no arithmetic: a number is only tested for truthiness and
    converted to a string. *)
Record JsonNumber := mkNum { num_neg : bool; num_mant : N; num_exp10 : Z }.

(** The literal denotes the double [+0] or [-0]: it is zero, or it is at
    most [2^-1075] in magnitude (half the least subnormal, the tie going to
    the even neighbour, zero). *)
Definition rounds_to_zero (n : JsonNumber) : bool :=
  (num_mant n =? 0)
  || (if (0 <=? num_exp10 n)%Z then false
      else (Z.of_N (num_mant n) * 2 ^ 1075 <=? 10 ^ (- num_exp10 n))%Z).

Inductive Value :=
| VUndefined
| VNull
| VBool (b : bool)
| VNum (n : JsonNumber)
| VStr (s : jstring)
| VArr (elems : list Value)
| VObj (props : list (jstring * Value)).

(** Own data property of an object built by [JSON.parse] or by an object
    literal: the last entry for the key. *)
Fixpoint lookup (k : jstring) (o : list (jstring * Value)) : option Value :=
  match o with
  | [] => None
  | (k', v) :: r =>
      match lookup k r with
      | Some v' => Some v'
      | None => if jstring_eqb k' k then Some v else None
      end
  end.

(** The property [k] of an object, [undefined] when it has none. *)
Definition field (o : list (jstring * Value)) (k : jstring) : Value :=
  match lookup k o with
  | Some x => x
  | None => VUndefined
  end.

(** The property [k] of an object with value [v], said without [lookup]:
    [(k, v)] is the last entry for [k]. *)
Definition has_property (o : list (jstring * Value)) (k : jstring)
           (v : Value) : Prop :=
  exists before after,
    o = before ++ (k, v) :: after /\ forall v', ~ In (k, v') after.

(** The object has no property [k]. *)
Definition no_property (o : list (jstring * Value)) (k : jstring) : Prop :=
  forall v, ~ In (k, v) o.

Definition remove_key (k : jstring) (o : list (jstring * Value))
  : list (jstring * Value) :=
  filter (fun p => negb (jstring_eqb (fst p) k)) o.

(** ToBoolean. *)
Definition ToBoolean (v : Value) : bool :=
  match v with
  | VUndefined | VNull => false
  | VBool b => b
  | VNum n => negb (rounds_to_zero n)
  | VStr s => match s with [] => false | _ => true end
  | VArr _ | VObj _ => true
  end.

(** [a || b]. *)
Definition or_else (a b : Value) : Value := if ToBoolean a then a else b.

(* ================================================================== *)
(** ** Exceptions *)

Inductive Exn :=
| SyntaxError_JSON (input : jstring)
| TypeError_read_property (target : Value) (key : jstring)
| TypeError_not_a_function (key : jstring)
| TypeError_to_primitive
| RangeError_call_stack
| FetchFailure (reason : jstring).

Inductive Completion (A : Type) :=
| Normal (a : A)
| Throw (e : Exn).
Arguments Normal {A} a.
Arguments Throw {A} e.

Definition cbind {A B} (c : Completion A) (k : A -> Completion B)
  : Completion B :=
  match c with
  | Normal a => k a
  | Throw e => Throw e
  end.

Declare Scope completion_scope.
Delimit Scope completion_scope with completion.
Notation "x <- c ;; k" := (cbind c (fun x => k))
  (at level 61, c at next level, right associativity) : completion_scope.

(** [v.key] for a key that no built-in prototype defines (every key the
    handler reads is such a key): the own property of an object,
    [undefined] on any other non-nullish value, a TypeError on [null] and
    [undefined]. *)
Definition Get (v : Value) (k : jstring) : Completion Value :=
  match v with
  | VUndefined | VNull => Throw (TypeError_read_property v k)
  | VObj o => Normal (match lookup k o with Some x => x | None => VUndefined end)
  | _ => Normal VUndefined
  end.

(** [v?.key]. *)
Definition Get_opt (v : Value) (k : jstring) : Value :=
  match Get v k with
  | Normal x => x
  | Throw _ => VUndefined
  end.

(** [v?.[0]]. *)
Definition Get_opt_index0 (v : Value) : Value :=
  match v with
  | VArr l => hd VUndefined l
  | VStr (c :: _) => VStr [c]
  | VObj o => match lookup (js "0") o with Some x => x | None => VUndefined end
  | _ => VUndefined
  end.

(* ================================================================== *)
(** ** JSON.parse *)

Definition is_json_ws (c : codeunit) : bool :=
  (c =? 32) || (c =? 9) || (c =? 10) || (c =? 13).

Fixpoint skip_ws (s : jstring) : jstring :=
  match s with
  | [] => []
  | c :: r => if is_json_ws c then skip_ws r else s
  end.

Definition is_digit (c : codeunit) : bool := (48 <=? c) && (c <=? 57).

Definition hex_value (c : codeunit) : option N :=
  if is_digit c then Some (c - 48)
  else if (97 <=? c) && (c <=? 102) then Some (c - 87)
  else if (65 <=? c) && (c <=? 70) then Some (c - 55)
  else None.

Definition hex4 (a b c d : codeunit) : option codeunit :=
  match hex_value a, hex_value b, hex_value c, hex_value d with
  | Some x, Some y, Some z, Some w => Some (((x * 16 + y) * 16 + z) * 16 + w)
  | _, _, _, _ => None
  end.

(** The character after a backslash, for the two-character escapes. *)
Definition simple_escape (c : codeunit) : option codeunit :=
  if c =? 34 then Some 34            (* quotation mark *)
  else if c =? 92 then Some 92       (* reverse solidus *)
  else if c =? 47 then Some 47       (* solidus *)
  else if c =? 98 then Some 8        (* b: backspace *)
  else if c =? 102 then Some 12      (* f: form feed *)
  else if c =? 110 then Some 10      (* n: line feed *)
  else if c =? 114 then Some 13      (* r: carriage return *)
  else if c =? 116 then Some 9       (* t: tab *)
  else None.

(** The characters of a string literal after its opening quote, up to and
    including the closing quote. *)
Fixpoint parse_chars (s acc : jstring) : option (jstring * jstring) :=
  match s with
  | [] => None
  | c :: r =>
      if c =? 34 then Some (rev acc, r)
      else if c =? 92 then
        match r with
        | [] => None
        | e :: r1 =>
            if e =? 117 then
              match r1 with
              | h1 :: h2 :: h3 :: h4 :: r2 =>
                  match hex4 h1 h2 h3 h4 with
                  | Some u => parse_chars r2 (u :: acc)
                  | None => None
                  end
              | _ => None
              end
            else
              match simple_escape e with
              | Some u => parse_chars r1 (u :: acc)
              | None => None
              end
        end
      else if c <? 32 then None
      else parse_chars r (c :: acc)
  end.

Fixpoint take_digits (s : jstring) : list N * jstring :=
  match s with
  | [] => ([], [])
  | c :: r =>
      if is_digit c
      then let (d, r') := take_digits r in ((c - 48) :: d, r')
      else ([], s)
  end.

Definition digits_value (d : list N) : N :=
  fold_left (fun a x => 10 * a + x) d 0.

(** The parts of a number literal: an optional minus sign; an integer part
    that is the digit zero alone or starts with a non-zero digit; an
    optional fraction (a point and at least one digit); an optional
    exponent ([e] or [E], an optional sign, at least one digit). *)
Definition parse_sign (s : jstring) : bool * jstring :=
  match s with
  | c :: r => if c =? 45 then (true, r) else (false, s)
  | [] => (false, s)
  end.

Definition parse_int (s : jstring) : option (list N * jstring) :=
  match take_digits s with
  | ([], _) => None
  | (d :: more, r) =>
      if (d =? 0) && (match more with [] => false | _ :: _ => true end)
      then None
      else Some (d :: more, r)
  end.

Definition parse_frac (s : jstring) : option (list N * jstring) :=
  match s with
  | c :: r =>
      if c =? 46 then
        match take_digits r with
        | ([], _) => None
        | (d :: more, r') => Some (d :: more, r')
        end
      else Some ([], s)
  | [] => Some ([], s)
  end.

Definition parse_exp (s : jstring) : option (Z * jstring) :=
  match s with
  | c :: r =>
      if (c =? 101) || (c =? 69) then
        let (eneg, r1) :=
          match r with
          | g :: r0 =>
              if g =? 45 then (true, r0)
              else if g =? 43 then (false, r0)
              else (false, r)
          | [] => (false, r)
          end in
        match take_digits r1 with
        | ([], _) => None
        | (d :: more, r') =>
            let e := Z.of_N (digits_value (d :: more)) in
            Some (if eneg then (- e)%Z else e, r')
        end
      else Some (0%Z, s)
  | [] => Some (0%Z, s)
  end.

Definition parse_number (s : jstring) : option (JsonNumber * jstring) :=
  let (neg, s1) := parse_sign s in
  match parse_int s1 with
  | None => None
  | Some (int, s2) =>
      match parse_frac s2 with
      | None => None
      | Some (frac, s3) =>
          match parse_exp s3 with
          | None => None
          | Some (e, s4) =>
              Some (mkNum neg (digits_value (int ++ frac))
                          (e - Z.of_nat (List.length frac))%Z, s4)
          end
      end
  end.

Fixpoint strip_prefix (p s : jstring) : option jstring :=
  match p, s with
  | [], _ => Some s
  | x :: p', y :: s' => if x =? y then strip_prefix p' s' else None
  | _ :: _, [] => None
  end.

Definition parse_literal (name : jstring) (v : Value) (s : jstring)
  : option (Value * jstring) :=
  match strip_prefix name s with
  | Some r => Some (v, r)
  | None => None
  end.

(** Recursive descent, written with the recursive calls as parameters:
    a value, given the parsers of the elements of an array and of the
    members of an object after the opening bracket. *)
Definition value_step
           (elements : jstring -> option (list Value * jstring))
           (members : jstring -> option (list (jstring * Value) * jstring))
           (s : jstring) : option (Value * jstring) :=
  match skip_ws s with
  | [] => None
  | c :: r =>
      if c =? 123 then
        match skip_ws r with
        | d :: r' =>
            if d =? 125 then Some (VObj [], r')
            else match members r with
                 | Some (m, r'') => Some (VObj m, r'')
                 | None => None
                 end
        | [] => None
        end
      else if c =? 91 then
        match skip_ws r with
        | d :: r' =>
            if d =? 93 then Some (VArr [], r')
            else match elements r with
                 | Some (l, r'') => Some (VArr l, r'')
                 | None => None
                 end
        | [] => None
        end
      else if c =? 34 then
        match parse_chars r [] with
        | Some (str, r') => Some (VStr str, r')
        | None => None
        end
      else if c =? 116 then parse_literal (js "true") (VBool true) (c :: r)
      else if c =? 102 then parse_literal (js "false") (VBool false) (c :: r)
      else if c =? 110 then parse_literal (js "null") VNull (c :: r)
      else
        match parse_number (c :: r) with
        | Some (n, r') => Some (VNum n, r')
        | None => None
        end
  end.

(** The elements of a non-empty array, up to and including the closing
    bracket. *)
Definition elements_step
           (value : jstring -> option (Value * jstring))
           (elements : jstring -> option (list Value * jstring))
           (s : jstring) : option (list Value * jstring) :=
  match value s with
  | None => None
  | Some (v, r) =>
      match skip_ws r with
      | c :: r' =>
          if c =? 44 then
            match elements r' with
            | Some (l, r'') => Some (v :: l, r'')
            | None => None
            end
          else if c =? 93 then Some ([v], r')
          else None
      | [] => None
      end
  end.

(** The members of a non-empty object, up to and including the closing
    brace. *)
Definition members_step
           (value : jstring -> option (Value * jstring))
           (members : jstring -> option (list (jstring * Value) * jstring))
           (s : jstring) : option (list (jstring * Value) * jstring) :=
  match skip_ws s with
  | q :: r =>
      if q =? 34 then
        match parse_chars r [] with
        | None => None
        | Some (k, r1) =>
            match skip_ws r1 with
            | colon :: r2 =>
                if colon =? 58 then
                  match value r2 with
                  | None => None
                  | Some (v, r3) =>
                      match skip_ws r3 with
                      | c :: r4 =>
                          if c =? 44 then
                            match members r4 with
                            | Some (m, r5) => Some ((k, v) :: m, r5)
                            | None => None
                            end
                          else if c =? 125 then Some ([(k, v)], r4)
                          else None
                      | [] => None
                      end
                  end
                else None
            | [] => None
            end
        end
      else None
  | [] => None
  end.

(** The recursion, on fuel.  [JSON_parse] starts it with more fuel than
    any input of that length needs ([JSON_parse_fuel]). *)
Fixpoint parse_value (fuel : nat) (s : jstring) : option (Value * jstring) :=
  match fuel with
  | O => None
  | S f => value_step (parse_elements f) (parse_members f) s
  end
with parse_elements (fuel : nat) (s : jstring)
  : option (list Value * jstring) :=
  match fuel with
  | O => None
  | S f => elements_step (parse_value f) (parse_elements f) s
  end
with parse_members (fuel : nat) (s : jstring)
  : option (list (jstring * Value) * jstring) :=
  match fuel with
  | O => None
  | S f => members_step (parse_value f) (parse_members f) s
  end.

(** [JSON.parse(s)] for a string [s]. *)
Definition JSON_parse (s : jstring) : Completion Value :=
  match parse_value (2 * List.length s + 2) s with
  | Some (v, r) =>
      match skip_ws r with
      | [] => Normal v
      | _ :: _ => Throw (SyntaxError_JSON s)
      end
  | None => Throw (SyntaxError_JSON s)
  end.

(** A parser that leaves less than it is given. *)
Definition consumes {A : Type} (p : jstring -> option (A * jstring)) : Prop :=
  forall s x r, p s = Some (x, r) -> (List.length r < List.length s)%nat.

(** On inputs of length at most [n], whatever [p] parses, [q] parses alike. *)
Definition extends {A : Type} (n : nat)
           (p q : jstring -> option (A * jstring)) : Prop :=
  forall s x, (List.length s <= n)%nat -> p s = Some x -> q s = Some x.

(* ================================================================== *)
(** ** JSON.stringify *)

(** What the handler serialises: object and array literals over strings,
    and the numeric literal [0.2]. *)
Inductive Doc :=
| DStr (s : jstring)
| DNum (n : JsonNumber)
| DArr (elems : list Doc)
| DObj (props : list (jstring * Doc)).

Definition hex_digit (n : N) : codeunit :=
  if n <? 10 then 48 + n else 87 + n.

(** [\uXXXX], lowercase. *)
Definition unicode_escape (c : codeunit) : jstring :=
  [92; 117; hex_digit (c / 4096 mod 16); hex_digit (c / 256 mod 16);
   hex_digit (c / 16 mod 16); hex_digit (c mod 16)].

Definition escape_unit (c : codeunit) : jstring :=
  if c =? 8 then [92; 98]
  else if c =? 9 then [92; 116]
  else if c =? 10 then [92; 110]
  else if c =? 12 then [92; 102]
  else if c =? 13 then [92; 114]
  else if c =? 34 then [92; 34]
  else if c =? 92 then [92; 92]
  else if c <? 32 then unicode_escape c
  else [c].

Definition is_high_surrogate (c : codeunit) : bool :=
  (55296 <=? c) && (c <=? 56319).
Definition is_low_surrogate (c : codeunit) : bool :=
  (56320 <=? c) && (c <=? 57343).

(** QuoteJSONString without the enclosing quotes: a surrogate pair is
    copied, a lone surrogate is escaped. *)
Fixpoint quote_chars (s : jstring) : jstring :=
  match s with
  | [] => []
  | c :: r =>
      if is_high_surrogate c then
        match r with
        | d :: r' =>
            if is_low_surrogate d then c :: d :: quote_chars r'
            else unicode_escape c ++ quote_chars r
        | [] => unicode_escape c
        end
      else if is_low_surrogate c then unicode_escape c ++ quote_chars r
      else escape_unit c ++ quote_chars r
  end.

Definition quote (s : jstring) : jstring := [34] ++ quote_chars s ++ [34].

(* ================================================================== *)
(** ** HTTP data *)

Record Event := mkEvent {
  httpMethod : jstring;
  event_body : option jstring      (* [event.body]: a string or [null] *)
}.

Record Response := mkResponse {
  statusCode : N;
  headers : list (jstring * jstring);
  body : jstring
}.

(** [process.env]: a variable is a string or is not set. *)
Record Env := mkEnv {
  DEEPSEEK_API_KEY : option jstring;
  DEEPSEEK_BASE_URL : option jstring;
  DEEPSEEK_MODEL : option jstring
}.

Record FetchRequest := mkFetchRequest {
  url : jstring;
  req_method : jstring;
  req_headers : list (jstring * jstring);
  req_body : jstring
}.

(** What [fetch] resolves to: the status line, and the body as [resp.text()]
    delivers it, or the error with which reading the body rejects. *)
Record FetchResponse := mkFetchResponse {
  status : N;
  body_read : Completion jstring
}.

(** [resp.ok] *)
Definition ok (r : FetchResponse) : bool :=
  (200 <=? status r) && (status r <=? 299).

(** The environment of one invocation: the process configuration and the
    upstream service, which answers a request or makes [fetch] reject. *)
Record World := mkWorld {
  env : Env;
  network : FetchRequest -> Completion FetchResponse
}.

(** [process.env.X || fallback] *)
Definition env_or (x : option jstring) (fallback : jstring) : jstring :=
  match x with
  | Some (c :: r) => c :: r
  | _ => fallback
  end.

(* ================================================================== *)
(** ** The handler monad: exceptions and the log of [fetch] calls *)

Definition M (A : Type) : Type :=
  list FetchRequest -> Completion A * list FetchRequest.

Definition ret {A} (a : A) : M A := fun log => (Normal a, log).

Definition bind {A B} (m : M A) (k : A -> M B) : M B :=
  fun log =>
    match m log with
    | (Normal a, log') => k a log'
    | (Throw e, log') => (Throw e, log')
    end.

Definition lift {A} (c : Completion A) : M A := fun log => (c, log).

(** [try { m } catch (e) { h e }] *)
Definition try_catch {A} (m : M A) (h : Exn -> M A) : M A :=
  fun log =>
    match m log with
    | (Normal a, log') => (Normal a, log')
    | (Throw e, log') => h e log'
    end.

(** [await fetch(...)] *)
Definition fetch (w : World) (req : FetchRequest) : M FetchResponse :=
  fun log => (network w req, log ++ [req]).

Declare Scope handler_scope.
Delimit Scope handler_scope with handler.
Notation "x <- c ;; k" := (bind c (fun x => k))
  (at level 61, c at next level, right associativity) : handler_scope.

(** One invocation, from an empty log. *)
Definition run {A} (m : M A) : Completion A * list FetchRequest := m [].

(* ================================================================== *)
(** ** The handler *)

(** What the handler takes from the engine: two algorithms whose results
    it does not inspect, and the depth of recursion the call stack allows
    when an array is converted to a string. *)
Class Runtime := {
  (** Number::toString, on the double a literal denotes. *)
  Number_toString : JsonNumber -> jstring;
  (** [String(e)] for an exception [e]. *)
  Error_toString : Exn -> jstring;
  (** How deep arrays may nest in a conversion to a string. *)
  stack_limit : nat
}.

Section Runtime.

Context {RT : Runtime}.

(** *** Coercions *)

(** ToString, with [depth] levels of array nesting left before the call
    stack is exhausted.  An array goes through [Array.prototype.join],
    which renders [null] and [undefined] elements as empty and converts the
    others one level deeper, a RangeError ending the conversion when no
    level is left; an object from [JSON.parse] either inherits
    [Object.prototype.toString] or has an own [toString] that is not
    callable, and then no conversion succeeds. *)
Fixpoint ToString_within (depth : nat) (v : Value) {struct v}
  : Completion jstring :=
  match v with
  | VUndefined => Normal (js "undefined")
  | VNull => Normal (js "null")
  | VBool b => Normal (if b then js "true" else js "false")
  | VNum n => Normal (Number_toString n)
  | VStr s => Normal s
  | VArr l =>
      match depth with
      | O => Throw RangeError_call_stack
      | S deeper =>
          (fix join (l : list Value) (first : bool) : Completion jstring :=
             match l with
             | [] => Normal []
             | x :: r =>
                 cbind (match x with
                        | VUndefined | VNull => Normal []
                        | _ => ToString_within deeper x
                        end)
                   (fun sx =>
                      cbind (join r false)
                        (fun sr =>
                           Normal ((if first then [] else [44]) ++ sx ++ sr)))
             end) l true
      end
  | VObj o =>
      match lookup (js "toString") o with
      | Some _ => Throw TypeError_to_primitive
      | None => Normal (js "[object Object]")
      end
  end.

(** ToString. *)
Definition ToString (v : Value) : Completion jstring :=
  ToString_within stack_limit v.

(** [v.toString()] *)
Definition call_toString (v : Value) : Completion jstring :=
  match v with
  | VUndefined | VNull => Throw (TypeError_read_property v (js "toString"))
  | VObj o =>
      match lookup (js "toString") o with
      | Some _ => Throw (TypeError_not_a_function (js "toString"))
      | None => Normal (js "[object Object]")
      end
  | _ => ToString v
  end.

Fixpoint JSON_stringify (d : Doc) : jstring :=
  match d with
  | DStr s => quote s
  | DNum n => Number_toString n
  | DArr l =>
      [91] ++
      (fix elems (l : list Doc) : jstring :=
         match l with
         | [] => []
         | x :: r =>
             match r with
             | [] => JSON_stringify x
             | _ :: _ => JSON_stringify x ++ [44] ++ elems r
             end
         end) l ++ [93]
  | DObj o =>
      [123] ++
      (fix members (o : list (jstring * Doc)) : jstring :=
         match o with
         | [] => []
         | (k, x) :: r =>
             match r with
             | [] => quote k ++ [58] ++ JSON_stringify x
             | _ :: _ => quote k ++ [58] ++ JSON_stringify x ++ [44] ++ members r
             end
         end) o ++ [125]
  end.

(** *** Responses *)

Definition corsHeaders : list (jstring * jstring) :=
  [ (js "Access-Control-Allow-Origin", js "*");
    (js "Access-Control-Allow-Headers", js "Content-Type, Authorization");
    (js "Access-Control-Allow-Methods", js "POST, OPTIONS") ].

(** [{ ...corsHeaders, "Content-Type": "application/json" }] *)
Definition json_headers : list (jstring * jstring) :=
  corsHeaders ++ [ (js "Content-Type", js "application/json") ].

Definition json_response (code : N) (d : Doc) : Response :=
  mkResponse code json_headers (JSON_stringify d).

Definition error_body (msg : jstring) : Doc :=
  DObj [ (js "error", DStr msg) ].

Definition error_details_body (msg details : jstring) : Doc :=
  DObj [ (js "error", DStr msg); (js "details", DStr details) ].

Definition report_body (findings impression : jstring) : Doc :=
  DObj [ (js "findings", DStr findings); (js "impression", DStr impression) ].

(** *** Reading the request (lines 27-30) *)

Record Request := mkRequest {
  text : jstring;
  patient : Value;
  template : jstring
}.

Local Open Scope completion_scope.

(** [event.body ? JSON.parse(event.body) : {}] *)
Definition parse_body (event : Event) : Completion Value :=
  match event_body event with
  | Some (c :: r) => JSON_parse (c :: r)
  | _ => Normal (VObj [])
  end.

(** [(x || '').toString()] *)
Definition string_or_empty (x : Value) : Completion jstring :=
  call_toString (or_else x (VStr [])).

Definition read_request (event : Event) : Completion Request :=
  body <- parse_body event ;;
  t <- Get body (js "text") ;;
  ts <- string_or_empty t ;;
  p <- Get body (js "patient") ;;
  tp <- Get body (js "template") ;;
  tps <- string_or_empty tp ;;
  Normal (mkRequest (trim ts) (or_else p (VObj [])) tps).

(** *** The prompt (lines 52-66) *)

Definition system : jstring :=
  js "You are a radiology report editor. Return ONLY valid JSON with keys: findings, impression. Keep the same language as the input.".

(** [${patient.key || ''}] *)
Definition patient_field (patient : Value) (key : jstring)
  : Completion jstring :=
  x <- Get patient key ;;
  ToString (or_else x (VStr [])).

(** [template || "N/A"] *)
Definition template_or_NA (template : jstring) : jstring :=
  match template with
  | [] => js "N/A"
  | _ :: _ => template
  end.

Definition prompt_lines (template_shown name id date text : jstring)
  : list jstring :=
  [ js "Rewrite and polish this dictated dental radiology report text.";
    js "- Keep the medical meaning.";
    js "- Fix grammar, spelling, and structure.";
    js "- If the text is short/fragmented, complete it into a professional report.";
    js "- Output JSON ONLY in this schema:";
    jsq "{ 'findings': '...', 'impression': '...' }";
    [];
    cat [js "Template: "; template_shown];
    cat [js "Patient: "; name; js " | ID: "; id; js " | Date: "; date];
    [];
    js "Raw text:";
    text ].

Definition user_prompt (r : Request) : Completion jstring :=
  name <- patient_field (patient r) (js "name") ;;
  id <- patient_field (patient r) (js "id") ;;
  date <- patient_field (patient r) (js "date") ;;
  Normal (join_strings [10]
            (prompt_lines (template_or_NA (template r)) name id date (text r))).

(** *** The upstream request (lines 68-82) *)

Definition chat_request (apiKey baseUrl model user : jstring)
  : FetchRequest :=
  mkFetchRequest
    (cat [baseUrl; js "/v1/chat/completions"])
    (js "POST")
    [ (js "Content-Type", js "application/json");
      (js "Authorization", cat [js "Bearer "; apiKey]) ]
    (JSON_stringify
       (DObj [ (js "model", DStr model);
               (js "messages",
                DArr [ DObj [ (js "role", DStr (js "system"));
                              (js "content", DStr system) ];
                       DObj [ (js "role", DStr (js "user"));
                              (js "content", DStr user) ] ]);
               (js "temperature", DNum (mkNum false 2 (-1))) ])).

(** [await resp.text()] and [await resp.json()] *)
Definition resp_text (r : FetchResponse) : Completion jstring := body_read r.
Definition resp_json (r : FetchResponse) : Completion Value :=
  t <- body_read r ;; JSON_parse t.

(** *** Extraction and repair (lines 93-107) *)

(** [data?.choices?.[0]?.message?.content || ''] *)
Definition extract_content (data : Value) : Value :=
  or_else
    (Get_opt (Get_opt (Get_opt_index0 (Get_opt data (js "choices")))
                (js "message")) (js "content"))
    (VStr []).

(** [try { parsed = JSON.parse(content) } catch { parsed = {...} }];
    [JSON.parse] first converts its argument to a string. *)
Definition parse_content (content : Value) (text : jstring) : Value :=
  match (s <- ToString content ;; JSON_parse s) with
  | Normal v => v
  | Throw _ =>
      VObj [ (js "findings", or_else content (VStr text));
             (js "impression", VStr []) ]
  end.

(** [(parsed.lower || parsed.UPPER || '').toString().trim()] *)
Definition pick (parsed : Value) (lower upper : jstring)
  : Completion jstring :=
  a <- Get parsed lower ;;
  x <- (if ToBoolean a then Normal a
        else b <- Get parsed upper ;; Normal (or_else b (VStr []))) ;;
  s <- call_toString x ;;
  Normal (trim s).

Definition normalize (parsed : Value) (text : jstring)
  : Completion (jstring * jstring) :=
  findings <- pick parsed (js "findings") (js "FINDINGS") ;;
  impression <- pick parsed (js "impression") (js "IMPRESSION") ;;
  Normal (match findings with [] => text | _ :: _ => findings end,
          impression).

(** *** From the upstream response to the handler's (lines 84-113) *)

Definition respond (text : jstring) (resp : FetchResponse)
  : Completion Response :=
  if negb (ok resp) then
    errText <- resp_text resp ;;
    Normal (json_response 502
              (error_details_body (js "DeepSeek error") errText))
  else
    data <- resp_json resp ;;
    out <- normalize (parse_content (extract_content data) text) text ;;
    Normal (json_response 200 (report_body (fst out) (snd out))).

(** *** The handler (lines 7-121) *)

Local Open Scope handler_scope.

(** The body of the [try] block. *)
Definition handler_try (w : World) (event : Event) : M Response :=
  r <- lift (read_request event) ;;
  match text r with
  | [] => ret (json_response 400 (error_body (js "Missing text")))
  | _ :: _ =>
      let baseUrl :=
        env_or (DEEPSEEK_BASE_URL (env w)) (js "https://api.deepseek.com") in
      let model := env_or (DEEPSEEK_MODEL (env w)) (js "deepseek-chat") in
      match DEEPSEEK_API_KEY (env w) with
      | Some (k :: ey) =>
          user <- lift (user_prompt r) ;;
          resp <- fetch w (chat_request (k :: ey) baseUrl model user) ;;
          lift (respond (text r) resp)
      | _ =>
          ret (json_response 500
                 (error_body (js "Server missing DEEPSEEK_API_KEY")))
      end
  end.

Definition handler (w : World) (event : Event) : M Response :=
  if jstring_eqb (httpMethod event) (js "OPTIONS") then
    ret (mkResponse 204 corsHeaders [])
  else if negb (jstring_eqb (httpMethod event) (js "POST")) then
    ret (json_response 405 (error_body (js "Method Not Allowed")))
  else
    try_catch (handler_try w event)
      (fun e =>
         ret (json_response 500
                (error_details_body (js "Server exception")
                   (Error_toString e)))).

(** *** Observations used to state the properties *)

Local Open Scope completion_scope.

(** The response of the [catch] block. *)
Definition server_exception (e : Exn) : Response :=
  json_response 500
    (error_details_body (js "Server exception") (Error_toString e)).

(** What the [catch] block makes of the [try] block's outcome. *)
Definition caught (c : Completion Response) : Response :=
  match c with
  | Normal a => a
  | Throw e => server_exception e
  end.

(** Line 28 alone: the trimmed text of a request, when the body parses
    and the text converts. *)
Definition request_text (event : Event) : Completion jstring :=
  body <- parse_body event ;;
  t <- Get body (js "text") ;;
  ts <- string_or_empty t ;;
  Normal (trim ts).

(** [!apiKey] *)
Definition key_unset (e : Env) : bool :=
  match DEEPSEEK_API_KEY e with
  | Some (_ :: _) => false
  | _ => true
  end.

(** The request read and the upstream request issued, for an invocation
    that gets as far as [fetch]. *)
Definition request_sent (w : World) (event : Event)
  : option (Request * FetchRequest) :=
  if jstring_eqb (httpMethod event) (js "POST") then
    match read_request event with
    | Normal r =>
        match text r, DEEPSEEK_API_KEY (env w), user_prompt r with
        | _ :: _, Some (k :: ey), Normal user =>
            Some (r, chat_request (k :: ey)
                       (env_or (DEEPSEEK_BASE_URL (env w))
                          (js "https://api.deepseek.com"))
                       (env_or (DEEPSEEK_MODEL (env w)) (js "deepseek-chat"))
                       user)
        | _, _, _ => None
        end
    | Throw _ => None
    end
  else None.

(** The content the handler extracts, for an invocation whose upstream
    call succeeds with a body that parses. *)
Definition content_received (w : World) (event : Event) : option Value :=
  match request_sent w event with
  | Some (_, req) =>
      match network w req with
      | Normal resp =>
          if ok resp then
            match resp_json resp with
            | Normal data => Some (extract_content data)
            | Throw _ => None
            end
          else None
      | Throw _ => None
      end
  | None => None
  end.

(** A response the hosting environment can send: a known status, the
    three CORS headers, and either the empty preflight body or a JSON
    object with its content type. *)
Definition well_formed (r : Response) : Prop :=
  (forall h, In h corsHeaders -> In h (headers r)) /\
  ((statusCode r = 204 /\ body r = [] /\ headers r = corsHeaders) \/
   (In (statusCode r) [200; 400; 405; 500; 502] /\
    In (js "Content-Type", js "application/json") (headers r) /\
    exists o, body r = JSON_stringify (DObj o))).

(** The defaulting rule in the words of the data model: a field that is
    absent or not a string is the empty string. *)
Definition spec_default (x : Value) : jstring :=
  match x with
  | VStr s => s
  | _ => []
  end.

(** A field as the handler's header comment expects it: a string, or
    absent. *)
Definition string_or_absent (x : Value) : bool :=
  match x with
  | VUndefined | VStr _ => true
  | _ => false
  end.

(** A [patient] as expected: absent, or an object whose [name], [id] and
    [date] are strings or absent. *)
Definition patient_as_expected (p : Value) : bool :=
  match p with
  | VUndefined => true
  | VObj o =>
      string_or_absent (field o (js "name"))
      && string_or_absent (field o (js "id"))
      && string_or_absent (field o (js "date"))
  | _ => false
  end.

(** A parsed value that is neither [null] nor an object. *)
Definition scalar_or_array (v : Value) : bool :=
  match v with
  | VBool _ | VNum _ | VStr _ | VArr _ => true
  | _ => false
  end.

End Runtime.

(* ================================================================== *)
(** ** A concrete runtime, for running the handler on examples *)

Module Sample.

Definition digits (n : N) : jstring :=
  js (DecimalString.NilZero.string_of_uint (N.to_uint n)).

(** Trailing zeros removed. *)
Definition strip_zeros (s : jstring) : jstring :=
  rev ((fix go (s : jstring) : jstring :=
          match s with
          | c :: r => if c =? 48 then go r else s
          | [] => []
          end) (rev s)).

(** Fixed-point rendering; it is Number::toString on literals of at most
    15 significant digits whose magnitude lies in [1e-6, 1e21). *)
Definition render_number (n : JsonNumber) : jstring :=
  let m := num_mant n in
  if m =? 0 then js "0"
  else
    (if num_neg n then js "-" else []) ++
    match num_exp10 n with
    | Z.neg p =>
        let d := 10 ^ Npos p in
        let frac := digits (m mod d) in
        let pad := repeat 48 (Pos.to_nat p - List.length frac) in
        match m mod d with
        | 0 => digits (m / d)
        | _ => digits (m / d) ++ js "." ++ strip_zeros (pad ++ frac)
        end
    | e => digits (m * 10 ^ Z.to_N e)
    end.

(** Error renderings; the message texts of a real engine differ. *)
Definition render_error (e : Exn) : jstring :=
  match e with
  | SyntaxError_JSON _ => js "SyntaxError: Unexpected token in JSON"
  | TypeError_read_property _ k =>
      cat [js "TypeError: Cannot read properties of null (reading '"; k; js "')"]
  | TypeError_not_a_function k =>
      cat [js "TypeError: "; k; js " is not a function"]
  | TypeError_to_primitive =>
      js "TypeError: Cannot convert object to primitive value"
  | RangeError_call_stack =>
      js "RangeError: Maximum call stack size exceeded"
  | FetchFailure reason => reason
  end.

Definition runtime : Runtime :=
  {| Number_toString := render_number; Error_toString := render_error;
     stack_limit := 3000 |}.

(** An upstream that answers every request with the given status and
    body. *)
Definition answering (st : N) (b : jstring) : FetchRequest -> Completion FetchResponse :=
  fun _ => Normal (mkFetchResponse st (Normal b)).

(** The body of a chat completion whose message content is [content]. *)
Definition completion (content : jstring) : jstring :=
  @JSON_stringify runtime
    (DObj [ (js "choices",
             DArr [ DObj [ (js "message",
                            DObj [ (js "content", DStr content) ]) ] ]) ]).

Definition with_key : Env := mkEnv (Some (js "sk-test")) None None.
Definition without_key : Env := mkEnv None None None.

Definition post (b : jstring) : Event := mkEvent (js "POST") (Some b).

(** A world with the key set whose upstream answers 200 with a
    completion of the given content. *)
Definition replying (content : jstring) : World :=
  mkWorld with_key (answering 200 (completion content)).

(** A world with the key set whose upstream answers 500. *)
Definition rate_limited : World :=
  mkWorld with_key (answering 500 (js "rate limited")).

(** A world without the key; [fetch] would reject. *)
Definition unconfigured : World :=
  mkWorld without_key (fun _ => Throw (FetchFailure (js "TypeError: fetch failed"))).

(** The request of the spec's example and what the handler makes of it. *)
Definition umm : jstring := js "umm tooth 14 looks ok".
Definition umm_event : Event := post (jsq "{'text':'umm tooth 14 looks ok'}").
Definition umm_request : Request := mkRequest umm (VObj []) [].
Definition umm_fetch : FetchRequest :=
  @chat_request runtime (js "sk-test") (js "https://api.deepseek.com")
    (js "deepseek-chat")
    (join_strings [10] (prompt_lines (js "N/A") [] [] [] umm)).

(** Requests with unusual optional fields. *)
Definition blank_text_event : Event := post (jsq "{'text':'   '}").
Definition odd_template_event : Event :=
  post (jsq "{'text':'','template':{'toString':1}}").
Definition odd_template_text_event : Event :=
  post (jsq "{'text':'x','template':{'toString':1}}").

(** A world with the key set in which [fetch] rejects. *)
Definition offline : World :=
  mkWorld with_key (fun _ => Throw (FetchFailure (js "TypeError: fetch failed"))).

(** A world whose upstream answers 200 and then drops the connection, and
    one whose upstream answers 200 with a page that is not JSON. *)
Definition dropping : World :=
  mkWorld with_key
    (fun _ => Normal (mkFetchResponse 200
                        (Throw (FetchFailure (js "TypeError: terminated"))))).
Definition not_json : World := mkWorld with_key (answering 200 (js "<html>")).

(** A world whose upstream answers 200 with an empty JSON object. *)
Definition no_choices : World := mkWorld with_key (answering 200 (js "{}")).

(** A request with every optional field a string. *)
Definition full_event : Event :=
  post (jsq "{'text':' tooth 14 ok ','template':'CBCT','patient':{'name':'A. B.','id':'7'}}").
Definition full_fields : list (jstring * Value) :=
  [ (js "text", VStr (js " tooth 14 ok ")); (js "template", VStr (js "CBCT"));
    (js "patient", VObj [ (js "name", VStr (js "A. B.")); (js "id", VStr (js "7")) ]) ].

(** The spec's example of a reply. *)
Definition normal_exam : jstring :=
  jsq "{'findings':'Normal exam.','impression':'No caries.'}".
Definition normal_exam_response : Response :=
  mkResponse 200 json_headers normal_exam.

(** Parsed replies: uppercase and mixed-case keys, and falsy values. *)
Definition upper_reply : list (jstring * Value) :=
  [ (js "FINDINGS", VStr (js "  A  ")); (js "impression", VStr (js " B "));
    (js "Findings", VStr (js "x")) ].
Definition mixed_reply : list (jstring * Value) :=
  [ (js "Findings", VStr (js "A")); (js "Impression", VStr (js "B")) ].
Definition falsy_reply : list (jstring * Value) :=
  [ (js "findings", VBool false); (js "FINDINGS", VStr (js " A "));
    (js "impression", VNum (mkNum false 0 0)) ].

(** An engine whose call stack allows one level of array nesting. *)
Definition shallow : Runtime :=
  {| Number_toString := render_number; Error_toString := render_error;
     stack_limit := 1 |}.

End Sample.

(* ================================================================== *)
(** ** Induction on values *)

Section Induction.

(** Induction on values, through the elements of arrays and the properties
    of objects. *)
Variable P : Value -> Prop.
Hypothesis P_undefined : P VUndefined.
Hypothesis P_null : P VNull.
Hypothesis P_bool : forall b, P (VBool b).
Hypothesis P_num : forall n, P (VNum n).
Hypothesis P_str : forall s, P (VStr s).
Hypothesis P_arr : forall l, Forall P l -> P (VArr l).
Hypothesis P_obj : forall o, Forall (fun kv => P (snd kv)) o -> P (VObj o).

Fixpoint Value_nested_ind (v : Value) : P v :=
  match v with
  | VUndefined => P_undefined
  | VNull => P_null
  | VBool b => P_bool b
  | VNum n => P_num n
  | VStr s => P_str s
  | VArr l =>
      P_arr l ((fix all (l : list Value) : Forall P l :=
                  match l with
                  | [] => Forall_nil P
                  | x :: r => Forall_cons x (Value_nested_ind x) (all r)
                  end) l)
  | VObj o =>
      P_obj o ((fix all (o : list (jstring * Value))
                  : Forall (fun kv => P (snd kv)) o :=
                  match o with
                  | [] => Forall_nil _
                  | kv :: r => Forall_cons kv (Value_nested_ind (snd kv)) (all r)
                  end) o)
  end.

End Induction.

(* ================================================================== *)
(** ** Strings: equality and trimming *)

Lemma jstring_eqb_eq (a b : jstring) : jstring_eqb a b = true <-> a = b.
Proof.
  revert b; induction a as [|x a IH]; intros [|y b]; simpl;
    try (split; [discriminate | discriminate]); try tauto.
  rewrite andb_true_iff, N.eqb_eq, IH.
  split; [intros [-> ->]; reflexivity | intros E; inversion E; auto].
Qed.

Lemma jstring_eqb_neq (a b : jstring) : jstring_eqb a b = false <-> a <> b.
Proof.
  rewrite <- jstring_eqb_eq.
  destruct (jstring_eqb a b); split; congruence.
Qed.

Lemma drop_space_clean (s : jstring) : starts_clean (drop_space s).
Proof.
  induction s as [|c r IH]; simpl; [exact I|].
  destruct (is_trim_space c) eqn:E; [exact IH | exact E].
Qed.

Lemma drop_space_fix (s : jstring) : starts_clean s -> drop_space s = s.
Proof. destruct s as [|c r]; simpl; [reflexivity | intros ->; reflexivity]. Qed.

Lemma starts_clean_app (s : jstring) (c : codeunit) :
  s <> [] -> starts_clean (s ++ [c]) <-> starts_clean s.
Proof. destruct s; [congruence | simpl; tauto]. Qed.

(** Dropping leading space keeps the end of the string clean. *)
Lemma drop_space_end_clean (s : jstring) :
  starts_clean (rev s) -> starts_clean (rev (drop_space s)).
Proof.
  induction s as [|c r IH]; simpl; [trivial|].
  destruct (is_trim_space c) eqn:E; [|trivial].
  intros H. destruct r as [|d r']; [exact I|].
  apply IH. apply (starts_clean_app (rev (d :: r')) c); [|exact H].
  simpl. destruct (rev r'); discriminate.
Qed.

Lemma trim_idempotent (s : jstring) : trim (trim s) = trim s.
Proof.
  unfold trim.
  set (e := drop_space (rev (drop_space s))).
  assert (He : starts_clean (rev e)).
  { apply drop_space_end_clean. rewrite rev_involutive. apply drop_space_clean. }
  rewrite (drop_space_fix (rev e) He), rev_involutive.
  rewrite (drop_space_fix e); [reflexivity | apply drop_space_clean].
Qed.

Lemma drop_space_split (s : jstring) :
  exists pre, s = pre ++ drop_space s /\ forallb is_trim_space pre = true.
Proof.
  induction s as [|c r (pre & E & F)]; simpl.
  - exists []. split; reflexivity.
  - destruct (is_trim_space c) eqn:W.
    + exists (c :: pre). simpl. rewrite W, F. split; [f_equal; exact E | reflexivity].
    + exists []. split; reflexivity.
Qed.

Lemma forallb_rev (f : codeunit -> bool) (l : jstring) :
  forallb f l = true -> forallb f (rev l) = true.
Proof.
  rewrite !forallb_forall. intros H x X. apply H, in_rev, X.
Qed.

(** [trim] meets its description. *)
Lemma trim_trimmed_from (s : jstring) : trimmed_from s (trim s).
Proof.
  destruct (drop_space_split s) as (pre & E & F).
  destruct (drop_space_split (rev (drop_space s))) as (tail & E' & F').
  exists pre, (rev tail). unfold trim.
  set (e := drop_space (rev (drop_space s))) in *.
  repeat split.
  - rewrite E at 1. f_equal.
    rewrite <- rev_app_distr, <- E', rev_involutive. reflexivity.
  - exact F.
  - apply forallb_rev, F'.
  - apply drop_space_end_clean. rewrite rev_involutive. apply drop_space_clean.
  - rewrite rev_involutive. apply drop_space_clean.
Qed.

(* ================================================================== *)
(** ** JSON.parse: progress, and enough fuel *)

Section ParserFuel.

Local Open Scope nat_scope.

(** Closes a branch that returns its result: the remaining input is
    related to the given one by the facts at hand. *)
Ltac returned :=
  let E := fresh "E" in
  intros E; inversion E; subst; simpl in *; lia.

Lemma skip_ws_length (s : jstring) :
  List.length (skip_ws s) <= List.length s.
Proof.
  induction s as [|c r IH]; simpl; [lia|].
  destruct (is_json_ws c); simpl; lia.
Qed.

Lemma parse_chars_length (n : nat) :
  forall s acc x r,
    List.length s <= n -> parse_chars s acc = Some (x, r) ->
    List.length r < List.length s.
Proof.
  induction n as [|n IH]; intros [|c s'] acc x r L; simpl in L |- *;
    try discriminate; try lia.
  destruct (c =? 34)%N.
  { returned. }
  destruct (c =? 92)%N.
  { destruct s' as [|e r1]; [discriminate|].
    destruct (e =? 117)%N.
    - destruct r1 as [|h1 [|h2 [|h3 [|h4 r2]]]]; try discriminate.
      destruct (hex4 h1 h2 h3 h4); [|discriminate].
      intros E. apply IH in E; simpl in *; lia.
    - destruct (simple_escape e); [|discriminate].
      intros E. apply IH in E; simpl in *; lia. }
  destruct (c <? 32)%N; [discriminate|].
  intros E. apply IH in E; simpl in *; lia.
Qed.

Lemma take_digits_length (s : jstring) :
  List.length (snd (take_digits s)) + List.length (fst (take_digits s))
  = List.length s.
Proof.
  induction s as [|c r IH]; simpl; [reflexivity|].
  destruct (is_digit c); simpl; [|lia].
  destruct (take_digits r); simpl in *; lia.
Qed.

Lemma parse_sign_length (s : jstring) :
  List.length (snd (parse_sign s)) <= List.length s.
Proof.
  destruct s as [|c r]; simpl; [lia|]. destruct (c =? 45)%N; simpl; lia.
Qed.

Lemma parse_int_length (s : jstring) (d : list N) (r : jstring) :
  parse_int s = Some (d, r) -> List.length r < List.length s.
Proof.
  unfold parse_int. pose proof (take_digits_length s) as L.
  destruct (take_digits s) as [[|x more] r0]; [discriminate|].
  destruct (_ && _); [discriminate|].
  returned.
Qed.

Lemma parse_frac_length (s : jstring) (d : list N) (r : jstring) :
  parse_frac s = Some (d, r) -> List.length r <= List.length s.
Proof.
  unfold parse_frac. destruct s as [|c s'].
  { returned. }
  destruct (c =? 46)%N.
  - pose proof (take_digits_length s') as L.
    destruct (take_digits s') as [[|x more] r0]; [discriminate|].
    returned.
  - returned.
Qed.

Lemma parse_exp_length (s : jstring) (e : Z) (r : jstring) :
  parse_exp s = Some (e, r) -> List.length r <= List.length s.
Proof.
  unfold parse_exp. destruct s as [|c s'].
  { returned. }
  destruct (_ || _).
  - assert (H : forall r1, List.length r1 <= List.length s' ->
                match take_digits r1 with
                | ([], _) => None
                | (d :: more, r') => Some (d :: more, r')
                end <> None ->
                List.length (snd (take_digits r1)) <= List.length s').
    { intros r1 L _. pose proof (take_digits_length r1). lia. }
    destruct s' as [|g r0].
    + simpl. discriminate.
    + destruct (g =? 45)%N; [|destruct (g =? 43)%N];
        match goal with
        | |- match take_digits ?r1 with _ => _ end = _ -> _ =>
            pose proof (take_digits_length r1) as L;
            destruct (take_digits r1) as [[|x more] r']; [discriminate|];
            intros E; inversion E; subst; simpl in *; lia
        end.
  - returned.
Qed.

Lemma parse_number_length (s : jstring) (n : JsonNumber) (r : jstring) :
  parse_number s = Some (n, r) -> List.length r < List.length s.
Proof.
  unfold parse_number. pose proof (parse_sign_length s) as L0.
  destruct (parse_sign s) as [neg s1]. simpl in L0.
  destruct (parse_int s1) as [[int s2]|] eqn:I; [|discriminate].
  apply parse_int_length in I.
  destruct (parse_frac s2) as [[frac s3]|] eqn:F; [|discriminate].
  apply parse_frac_length in F.
  destruct (parse_exp s3) as [[e s4]|] eqn:X; [|discriminate].
  apply parse_exp_length in X.
  returned.
Qed.

Lemma strip_prefix_length (p s r : jstring) :
  strip_prefix p s = Some r -> List.length r + List.length p = List.length s.
Proof.
  revert s; induction p as [|x p IH]; intros [|y s]; simpl;
    try discriminate; try (intros E; inversion E; subst; simpl; lia).
  destruct (x =? y)%N; [|discriminate].
  intros E. apply IH in E. lia.
Qed.

Lemma parse_literal_length (name : jstring) (v x : Value) (s r : jstring) :
  name <> [] -> parse_literal name v s = Some (x, r) ->
  List.length r < List.length s.
Proof.
  intros N. unfold parse_literal.
  destruct (strip_prefix name s) as [r0|] eqn:P; [|discriminate].
  apply strip_prefix_length in P.
  intros E; inversion E; subst. destruct name; [congruence | simpl in P; lia].
Qed.

Lemma value_step_consumes elements members :
  consumes elements -> consumes members ->
  consumes (value_step elements members).
Proof.
  intros He Hm s x r. unfold value_step.
  pose proof (skip_ws_length s) as L.
  destruct (skip_ws s) as [|c r0]; [discriminate|]. simpl in L.
  assert (LIT : forall name v, name <> [] ->
            parse_literal name v (c :: r0) = Some (x, r) ->
            List.length r < List.length s).
  { intros name v N E. apply parse_literal_length in E; simpl in *; [lia | exact N]. }
  destruct (c =? 123)%N.
  { pose proof (skip_ws_length r0) as L'.
    destruct (skip_ws r0) as [|d r']; [discriminate|]. simpl in L'.
    destruct (d =? 125)%N.
    - returned.
    - destruct (members r0) as [[m r'']|] eqn:M; [|discriminate].
      apply Hm in M. returned. }
  destruct (c =? 91)%N.
  { pose proof (skip_ws_length r0) as L'.
    destruct (skip_ws r0) as [|d r']; [discriminate|]. simpl in L'.
    destruct (d =? 93)%N.
    - returned.
    - destruct (elements r0) as [[l r'']|] eqn:M; [|discriminate].
      apply He in M. returned. }
  destruct (c =? 34)%N.
  { destruct (parse_chars r0 []) as [[str r']|] eqn:P; [|discriminate].
    apply (parse_chars_length _ _ _ _ _ (le_n _)) in P.
    returned. }
  destruct (c =? 116)%N; [apply LIT; discriminate|].
  destruct (c =? 102)%N; [apply LIT; discriminate|].
  destruct (c =? 110)%N; [apply LIT; discriminate|].
  destruct (parse_number (c :: r0)) as [[n r']|] eqn:P; [|discriminate].
  apply parse_number_length in P. simpl in P.
  returned.
Qed.

Lemma elements_step_consumes value elements :
  consumes value -> consumes elements ->
  consumes (elements_step value elements).
Proof.
  intros Hv He s x r. unfold elements_step.
  destruct (value s) as [[v r0]|] eqn:V; [|discriminate]. apply Hv in V.
  pose proof (skip_ws_length r0) as L.
  destruct (skip_ws r0) as [|c r']; [discriminate|]. simpl in L.
  destruct (c =? 44)%N.
  - destruct (elements r') as [[l r'']|] eqn:M; [|discriminate].
    apply He in M. returned.
  - destruct (c =? 93)%N; [|discriminate].
    returned.
Qed.

Lemma members_step_consumes value members :
  consumes value -> consumes members ->
  consumes (members_step value members).
Proof.
  intros Hv Hm s x r. unfold members_step.
  pose proof (skip_ws_length s) as L.
  destruct (skip_ws s) as [|q r0]; [discriminate|]. simpl in L.
  destruct (q =? 34)%N; [|discriminate].
  destruct (parse_chars r0 []) as [[k r1]|] eqn:P; [|discriminate].
  apply (parse_chars_length _ _ _ _ _ (le_n _)) in P.
  pose proof (skip_ws_length r1) as L1.
  destruct (skip_ws r1) as [|colon r2]; [discriminate|]. simpl in L1.
  destruct (colon =? 58)%N; [|discriminate].
  destruct (value r2) as [[v r3]|] eqn:V; [|discriminate]. apply Hv in V.
  pose proof (skip_ws_length r3) as L3.
  destruct (skip_ws r3) as [|c r4]; [discriminate|]. simpl in L3.
  destruct (c =? 44)%N.
  - destruct (members r4) as [[m r5]|] eqn:M; [|discriminate].
    apply Hm in M. returned.
  - destruct (c =? 125)%N; [|discriminate].
    returned.
Qed.

(** Every parser of the recursion makes progress. *)
Lemma parse_consumes (f : nat) :
  consumes (parse_value f) /\ consumes (parse_elements f)
  /\ consumes (parse_members f).
Proof.
  induction f as [|f (Hv & He & Hm)].
  - repeat split; intros s x r; discriminate.
  - split; [|split]; cbn [parse_value parse_elements parse_members].
    + apply value_step_consumes; assumption.
    + apply elements_step_consumes; assumption.
    + apply members_step_consumes; assumption.
Qed.

Lemma value_step_extends elements elements' members members' s x :
  extends (List.length s - 1) elements elements' ->
  extends (List.length s - 1) members members' ->
  value_step elements members s = Some x ->
  value_step elements' members' s = Some x.
Proof.
  intros He Hm. unfold value_step.
  pose proof (skip_ws_length s) as L.
  destruct (skip_ws s) as [|c r0]; [discriminate|]. simpl in L.
  destruct (c =? 123)%N.
  { destruct (skip_ws r0) as [|d r']; [discriminate|].
    destruct (d =? 125)%N; [trivial|].
    destruct (members r0) as [[m r'']|] eqn:M; [|discriminate].
    rewrite (Hm r0 _ ltac:(lia) M). trivial. }
  destruct (c =? 91)%N; [|trivial].
  destruct (skip_ws r0) as [|d r']; [discriminate|].
  destruct (d =? 93)%N; [trivial|].
  destruct (elements r0) as [[l r'']|] eqn:M; [|discriminate].
  rewrite (He r0 _ ltac:(lia) M). trivial.
Qed.

Lemma elements_step_extends value value' elements elements' s x :
  consumes value ->
  extends (List.length s) value value' ->
  extends (List.length s - 1) elements elements' ->
  elements_step value elements s = Some x ->
  elements_step value' elements' s = Some x.
Proof.
  intros Cv Hv He. unfold elements_step.
  destruct (value s) as [[v r0]|] eqn:V; [|discriminate].
  rewrite (Hv s _ (le_n _) V). apply Cv in V.
  pose proof (skip_ws_length r0) as L.
  destruct (skip_ws r0) as [|c r']; [discriminate|]. simpl in L.
  destruct (c =? 44)%N; [|trivial].
  destruct (elements r') as [[l r'']|] eqn:M; [|discriminate].
  rewrite (He r' _ ltac:(lia) M). trivial.
Qed.

Lemma members_step_extends value value' members members' s x :
  consumes value ->
  extends (List.length s) value value' ->
  extends (List.length s - 1) members members' ->
  members_step value members s = Some x ->
  members_step value' members' s = Some x.
Proof.
  intros Cv Hv Hm. unfold members_step.
  pose proof (skip_ws_length s) as L.
  destruct (skip_ws s) as [|q r0]; [discriminate|]. simpl in L.
  destruct (q =? 34)%N; [|discriminate].
  destruct (parse_chars r0 []) as [[k r1]|] eqn:P; [|discriminate].
  apply (parse_chars_length _ _ _ _ _ (le_n _)) in P.
  pose proof (skip_ws_length r1) as L1.
  destruct (skip_ws r1) as [|colon r2]; [discriminate|]. simpl in L1.
  destruct (colon =? 58)%N; [|discriminate].
  destruct (value r2) as [[v r3]|] eqn:V; [|discriminate].
  rewrite (Hv r2 _ ltac:(lia) V). apply Cv in V.
  pose proof (skip_ws_length r3) as L3.
  destruct (skip_ws r3) as [|c r4]; [discriminate|]. simpl in L3.
  destruct (c =? 44)%N; [|trivial].
  destruct (members r4) as [[m r5]|] eqn:M; [|discriminate].
  rewrite (Hm r4 _ ltac:(lia) M). trivial.
Qed.

(** Fuel twice the length of the input is enough for a value, and one more
    for elements and members. *)
Lemma parse_fuel (f : nat) :
  (forall g s x, 2 * List.length s <= g ->
     parse_value f s = Some x -> parse_value g s = Some x)
  /\ (forall g s x, 2 * List.length s + 1 <= g ->
        parse_elements f s = Some x -> parse_elements g s = Some x)
  /\ (forall g s x, 2 * List.length s + 1 <= g ->
        parse_members f s = Some x -> parse_members g s = Some x).
Proof.
  induction f as [|f (Hv & He & Hm)].
  - repeat split; intros g s x; discriminate.
  - destruct (parse_consumes f) as (Cv & _ & _).
    split; [|split]; intros g s x L.
    + destruct s as [|c s']; [discriminate|]. simpl in L.
      destruct g as [|g]; [lia|].
      cbn [parse_value]. apply value_step_extends.
      * intros s1 y L1. apply He. simpl in L1. lia.
      * intros s1 y L1. apply Hm. simpl in L1. lia.
    + destruct s as [|c s']; [destruct f; discriminate|]. simpl in L.
      destruct g as [|g]; [lia|].
      cbn [parse_elements]. apply elements_step_extends; [exact Cv | |].
      * intros s1 y L1. apply Hv. simpl in L1. lia.
      * intros s1 y L1. apply He. simpl in L1. lia.
    + destruct s as [|c s']; [discriminate|]. simpl in L.
      destruct g as [|g]; [lia|].
      cbn [parse_members]. apply members_step_extends; [exact Cv | |].
      * intros s1 y L1. apply Hv. simpl in L1. lia.
      * intros s1 y L1. apply Hm. simpl in L1. lia.
Qed.

(** Whatever value any amount of fuel finds in [s], [JSON_parse] finds. *)
Lemma JSON_parse_fuel (f : nat) (s r : jstring) (v : Value) :
  parse_value f s = Some (v, r) -> skip_ws r = [] -> JSON_parse s = Normal v.
Proof.
  intros P W. unfold JSON_parse.
  destruct (parse_fuel f) as (Hv & _ & _).
  rewrite (Hv (2 * List.length s + 2) s (v, r)); [rewrite W; reflexivity | lia | exact P].
Qed.

(** A rejection by [JSON_parse] is never for lack of fuel. *)
Lemma JSON_parse_rejects (f : nat) (s : jstring) (e : Exn) :
  JSON_parse s = Throw e ->
  match parse_value f s with
  | Some (_, r) => skip_ws r <> []
  | None => True
  end.
Proof.
  intros T. destruct (parse_value f s) as [[v r]|] eqn:P; [|exact I].
  intros W. rewrite (JSON_parse_fuel f s r v P W) in T. discriminate T.
Qed.

End ParserFuel.

(* ================================================================== *)
(** ** Objects *)

Lemma lookup_remove_key (k : jstring) (o : list (jstring * Value)) :
  lookup k (remove_key k o) = None.
Proof.
  induction o as [|[k' v] r IH]; simpl; [reflexivity|].
  destruct (jstring_eqb k' k) eqn:E; simpl; [exact IH|].
  rewrite IH, E. reflexivity.
Qed.

Lemma lookup_remove_other (k k' : jstring) (o : list (jstring * Value)) :
  k <> k' -> lookup k' (remove_key k o) = lookup k' o.
Proof.
  intros N. induction o as [|[k0 v] r IH]; simpl; [reflexivity|].
  destruct (jstring_eqb k0 k) eqn:E; simpl; rewrite IH.
  - apply jstring_eqb_eq in E; subst k0.
    apply jstring_eqb_neq in N. rewrite N. destruct (lookup k' r); reflexivity.
  - reflexivity.
Qed.

Lemma lookup_none (o : list (jstring * Value)) (k : jstring) :
  lookup k o = None <-> no_property o k.
Proof.
  unfold no_property. induction o as [|[k' v'] r IH]; simpl.
  - split; [intros _ v [] | reflexivity].
  - split.
    + intros H. destruct (lookup k r) eqn:L; [discriminate|].
      destruct (jstring_eqb k' k) eqn:E; [discriminate|].
      intros v [X|X].
      * inversion X; subst.
        rewrite (proj2 (jstring_eqb_eq k k) eq_refl) in E. discriminate E.
      * apply (proj1 IH eq_refl v X).
    + intros H.
      assert (L : lookup k r = None)
        by (apply IH; intros v X; apply (H v); right; exact X).
      rewrite L. destruct (jstring_eqb k' k) eqn:E; [|reflexivity].
      apply jstring_eqb_eq in E. subst k'. exfalso.
      apply (H v'). left; reflexivity.
Qed.

Lemma lookup_some (o : list (jstring * Value)) (k : jstring) (v : Value) :
  lookup k o = Some v <-> has_property o k v.
Proof.
  unfold has_property. split.
  - revert v. induction o as [|[k' v'] r IH]; simpl; [discriminate|].
    intros v. destruct (lookup k r) as [x|] eqn:L.
    + intros E; inversion E; subst.
      destruct (IH v eq_refl) as (b & a & -> & N).
      exists ((k', v') :: b), a. split; [reflexivity | exact N].
    + destruct (jstring_eqb k' k) eqn:E; [|discriminate].
      apply jstring_eqb_eq in E. subst k'.
      intros X; inversion X; subst.
      exists [], r. split; [reflexivity|]. apply lookup_none, L.
  - intros (b & a & -> & N).
    induction b as [|[k' v'] b IH]; simpl.
    + rewrite (proj2 (lookup_none a k) N).
      rewrite (proj2 (jstring_eqb_eq k k) eq_refl). reflexivity.
    + rewrite IH. reflexivity.
Qed.

Lemma field_has_property (o : list (jstring * Value)) (k : jstring) (v : Value) :
  has_property o k v -> field o k = v.
Proof. intros H. unfold field. rewrite (proj2 (lookup_some o k v) H). reflexivity. Qed.

Lemma field_no_property (o : list (jstring * Value)) (k : jstring) :
  no_property o k -> field o k = VUndefined.
Proof. intros H. unfold field. rewrite (proj2 (lookup_none o k) H). reflexivity. Qed.

(** Two objects with the same properties under [k] read alike there. *)
Lemma lookup_same_properties (o o' : list (jstring * Value)) (k : jstring) :
  (forall x, has_property o' k x <-> has_property o k x) ->
  lookup k o' = lookup k o.
Proof.
  intros H. destruct (lookup k o) as [x|] eqn:L.
  - apply lookup_some, H, lookup_some, L.
  - destruct (lookup k o') as [y|] eqn:L'; [|reflexivity].
    apply lookup_some, H, lookup_some in L'. congruence.
Qed.

Lemma Get_object (o : list (jstring * Value)) (k : jstring) :
  Get (VObj o) k = Normal (field o k).
Proof. reflexivity. Qed.

Lemma or_else_falsy (a b : Value) : ToBoolean a = false -> or_else a b = b.
Proof. unfold or_else; intros ->; reflexivity. Qed.

Lemma or_else_truthy (a b : Value) : ToBoolean a = true -> or_else a b = a.
Proof. unfold or_else; intros ->; reflexivity. Qed.

(* ================================================================== *)
(** ** Control flow of the handler *)

Section Flow.

Context {RT : Runtime}.

Lemma handler_options (w : World) (ev : Event) :
  httpMethod ev = js "OPTIONS" ->
  run (handler w ev) = (Normal (mkResponse 204 corsHeaders []), []).
Proof.
  intros H. unfold handler. rewrite H.
  change (jstring_eqb (js "OPTIONS") (js "OPTIONS")) with true.
  reflexivity.
Qed.

Lemma handler_post (w : World) (ev : Event) :
  httpMethod ev = js "POST" ->
  run (handler w ev) =
    (Normal (caught (fst (run (handler_try w ev)))),
     snd (run (handler_try w ev))).
Proof.
  intros H. unfold handler. rewrite H.
  change (jstring_eqb (js "POST") (js "OPTIONS")) with false.
  change (jstring_eqb (js "POST") (js "POST")) with true.
  cbv beta iota delta [negb run try_catch ret].
  destruct (handler_try w ev []) as [[a|e] l]; reflexivity.
Qed.

Lemma handler_other (w : World) (ev : Event) :
  httpMethod ev <> js "OPTIONS" -> httpMethod ev <> js "POST" ->
  run (handler w ev) =
    (Normal (json_response 405 (error_body (js "Method Not Allowed"))), []).
Proof.
  intros H1 H2. unfold handler.
  apply jstring_eqb_neq in H1, H2. rewrite H1, H2. reflexivity.
Qed.

(** The [try] block stops before [fetch] unless a request is sent. *)
Lemma handler_try_read_throws (w : World) (ev : Event) (e : Exn) :
  read_request ev = Throw e -> run (handler_try w ev) = (Throw e, []).
Proof.
  intros H. unfold run, handler_try, bind, lift. rewrite H.
  reflexivity.
Qed.

Lemma handler_try_missing_text (w : World) (ev : Event) (r : Request) :
  read_request ev = Normal r -> text r = [] ->
  run (handler_try w ev) =
    (Normal (json_response 400 (error_body (js "Missing text"))), []).
Proof.
  intros H T. unfold run, handler_try, bind, lift. rewrite H, T.
  reflexivity.
Qed.

Lemma handler_try_missing_key (w : World) (ev : Event) (r : Request) :
  read_request ev = Normal r -> text r <> [] -> key_unset (env w) = true ->
  run (handler_try w ev) =
    (Normal (json_response 500
               (error_body (js "Server missing DEEPSEEK_API_KEY"))), []).
Proof.
  intros H T K. unfold run, handler_try, bind, lift. rewrite H.
  destruct (text r); [congruence|].
  unfold key_unset in K.
  destruct (DEEPSEEK_API_KEY (env w)) as [[|k ey]|];
    try discriminate; reflexivity.
Qed.

Lemma handler_try_sent (w : World) (ev : Event) (r : Request)
      (req : FetchRequest) :
  request_sent w ev = Some (r, req) ->
  run (handler_try w ev) =
    (cbind (network w req) (respond (text r)), [req]).
Proof.
  unfold request_sent, run, handler_try, bind, lift, fetch.
  destruct (jstring_eqb (httpMethod ev) (js "POST")); [|discriminate].
  destruct (read_request ev) as [r0|e]; [|discriminate].
  destruct (text r0) eqn:T; [discriminate|].
  destruct (DEEPSEEK_API_KEY (env w)) as [[|k ey]|]; try discriminate.
  destruct (user_prompt r0) as [user|e]; [|discriminate].
  intros E; inversion E; subst; clear E. rewrite T.
  simpl app. destruct (network w _) as [resp|e]; reflexivity.
Qed.

End Flow.

(* ================================================================== *)
(** ** Properties of the handler *)

Section Outcomes.

Context {RT : Runtime}.

Lemma request_sent_post (w : World) (ev : Event) (r : Request)
      (req : FetchRequest) :
  request_sent w ev = Some (r, req) ->
  httpMethod ev = js "POST" /\ read_request ev = Normal r /\ text r <> [].
Proof.
  unfold request_sent.
  destruct (jstring_eqb (httpMethod ev) (js "POST")) eqn:P; [|discriminate].
  apply jstring_eqb_eq in P.
  destruct (read_request ev) as [r0|e]; [|discriminate].
  destruct (text r0) eqn:T; [discriminate|].
  destruct (DEEPSEEK_API_KEY (env w)) as [[|k ey]|]; try discriminate.
  destruct (user_prompt r0); [|discriminate].
  intros E; inversion E; subst. rewrite T. repeat split; congruence.
Qed.

Lemma read_request_text (ev : Event) (r : Request) :
  read_request ev = Normal r -> request_text ev = Normal (text r).
Proof.
  unfold read_request, request_text.
  destruct (parse_body ev) as [b|e]; simpl; [|discriminate].
  destruct (Get b (js "text")) as [t|e]; simpl; [|discriminate].
  destruct (string_or_empty t) as [ts|e]; simpl; [|discriminate].
  destruct (Get b (js "patient")) as [p|e]; simpl; [|discriminate].
  destruct (Get b (js "template")) as [tp|e]; simpl; [|discriminate].
  destruct (string_or_empty tp) as [tps|e]; simpl; [|discriminate].
  intros E; inversion E; reflexivity.
Qed.

Lemma read_request_trimmed (ev : Event) (r : Request) :
  read_request ev = Normal r -> trim (text r) = text r.
Proof.
  intros H. apply read_request_text in H. unfold request_text in H.
  destruct (parse_body ev) as [b|e]; simpl in H; [|discriminate].
  destruct (Get b (js "text")) as [t|e]; simpl in H; [|discriminate].
  destruct (string_or_empty t) as [ts|e]; simpl in H; [|discriminate].
  inversion H. apply trim_idempotent.
Qed.

(** The four ways the [try] block of a POST can go. *)
Lemma handler_try_cases (w : World) (ev : Event) :
  httpMethod ev = js "POST" ->
  (exists e, run (handler_try w ev) = (Throw e, []))
  \/ (exists r, read_request ev = Normal r /\ text r = [] /\
        run (handler_try w ev) =
          (Normal (json_response 400 (error_body (js "Missing text"))), []))
  \/ (exists r, read_request ev = Normal r /\ text r <> [] /\
        key_unset (env w) = true /\
        run (handler_try w ev) =
          (Normal (json_response 500
                     (error_body (js "Server missing DEEPSEEK_API_KEY"))), []))
  \/ (exists r req, request_sent w ev = Some (r, req) /\
        run (handler_try w ev) =
          (cbind (network w req) (respond (text r)), [req])).
Proof.
  intros P.
  destruct (read_request ev) as [r|e] eqn:R.
  2:{ left. exists e. apply handler_try_read_throws, R. }
  destruct (text r) as [|c t] eqn:T.
  { right; left. exists r. repeat split; trivial.
    apply (handler_try_missing_text w ev r); assumption. }
  destruct (key_unset (env w)) eqn:K.
  { right; right; left. exists r. rewrite T. repeat split; try congruence.
    apply (handler_try_missing_key w ev r); congruence. }
  destruct (user_prompt r) as [user|e] eqn:U.
  - right; right; right.
    assert (S : exists req, request_sent w ev = Some (r, req)).
    { unfold request_sent. apply jstring_eqb_eq in P. rewrite P, R, T, U.
      unfold key_unset in K.
      destruct (DEEPSEEK_API_KEY (env w)) as [[|k ey]|]; try discriminate.
      eexists; reflexivity. }
    destruct S as [req S]. exists r, req. split; [exact S|].
    apply handler_try_sent, S.
  - left. exists e.
    unfold run, handler_try, bind, lift. rewrite R, T.
    unfold key_unset in K.
    destruct (DEEPSEEK_API_KEY (env w)) as [[|k ey]|]; try discriminate.
    rewrite U. reflexivity.
Qed.

(** What [respond] returns when it returns. *)
Lemma respond_cases (t : jstring) (resp : FetchResponse) (a : Response) :
  respond t resp = Normal a ->
  (exists d, ok resp = false /\ resp_text resp = Normal d /\
     a = json_response 502 (error_details_body (js "DeepSeek error") d))
  \/ (exists data findings impression,
        ok resp = true /\ resp_json resp = Normal data /\
        normalize (parse_content (extract_content data) t) t
          = Normal (findings, impression) /\
        a = json_response 200 (report_body findings impression)).
Proof.
  unfold respond. destruct (ok resp); simpl.
  - destruct (resp_json resp) as [data|e]; simpl; [|discriminate].
    destruct (normalize _ t) as [[f i]|e] eqn:N; simpl; [|discriminate].
    intros E; inversion E. right. exists data, f, i. auto.
  - destruct (resp_text resp) as [d|e]; simpl; [|discriminate].
    intros E; inversion E. left. exists d. auto.
Qed.

Lemma normalize_findings_nonempty (parsed : Value) (t f i : jstring) :
  t <> [] -> normalize parsed t = Normal (f, i) -> f <> [].
Proof.
  intros T. unfold normalize.
  destruct (pick parsed (js "findings") (js "FINDINGS")) as [x|e];
    simpl; [|discriminate].
  destruct (pick parsed (js "impression") (js "IMPRESSION")) as [y|e];
    simpl; [|discriminate].
  intros E; inversion E. destruct x; [assumption | discriminate].
Qed.

Lemma well_formed_json (code : N) (o : list (jstring * Doc)) :
  In code [200; 400; 405; 500; 502] ->
  well_formed (json_response code (DObj o)).
Proof.
  intros C. unfold well_formed.
  change (headers (json_response code (DObj o)))
    with (corsHeaders ++ [ (js "Content-Type", js "application/json") ]).
  split.
  - intros h H. apply in_or_app. left; exact H.
  - right. split; [exact C|]. split.
    + apply in_or_app. right. left. reflexivity.
    + exists o. reflexivity.
Qed.

Lemma well_formed_preflight : well_formed (mkResponse 204 corsHeaders []).
Proof. split; [intros h H; exact H | left; auto]. Qed.

(** Reading a property of a truthy value does not throw. *)
Lemma Get_truthy (v : Value) (k : jstring) :
  ToBoolean v = true -> Get v k = Normal (Get_opt v k).
Proof. destruct v; try discriminate; reflexivity. Qed.

Lemma or_else_object (v : Value) (o : list (jstring * Value)) :
  ToBoolean (or_else v (VObj o)) = true.
Proof. unfold or_else. destruct (ToBoolean v) eqn:E; [exact E | reflexivity]. Qed.

Lemma Get_normal (v x : Value) (k : jstring) :
  Get v k = Normal x -> Get_opt v k = x.
Proof. unfold Get_opt. intros ->. reflexivity. Qed.

(** What [read_request] made of the fields of the body. *)
Lemma read_request_fields (ev : Event) (b : Value) (r : Request) :
  parse_body ev = Normal b ->
  read_request ev = Normal r ->
  cbind (string_or_empty (Get_opt b (js "text"))) (fun s => Normal (trim s))
    = Normal (text r)
  /\ patient r = or_else (Get_opt b (js "patient")) (VObj [])
  /\ string_or_empty (Get_opt b (js "template")) = Normal (template r).
Proof.
  intros B. unfold read_request. rewrite B. cbn [cbind].
  destruct (Get b (js "text")) as [t|e] eqn:Gt; cbn [cbind]; [|discriminate].
  destruct (string_or_empty t) as [ts|e] eqn:St; cbn [cbind]; [|discriminate].
  destruct (Get b (js "patient")) as [p|e] eqn:Gp; cbn [cbind]; [|discriminate].
  destruct (Get b (js "template")) as [tp|e] eqn:Gtp; cbn [cbind]; [|discriminate].
  destruct (string_or_empty tp) as [tps|e] eqn:Stp; cbn [cbind]; [|discriminate].
  intros E; inversion E; subst; clear E. cbn [text patient template].
  rewrite (Get_normal _ _ _ Gt), (Get_normal _ _ _ Gp), (Get_normal _ _ _ Gtp).
  rewrite St, Stp. repeat split.
Qed.

End Outcomes.

(* ================================================================== *)
(** ** Normalization of the model's reply *)

Section Normalization.

Context {RT : Runtime}.

Local Open Scope completion_scope.

(** On an object, [pick] is the strict reading of the two [||]. *)
Lemma pick_object (o : list (jstring * Value)) (lower upper : jstring) :
  pick (VObj o) lower upper =
    (s <- call_toString
            (or_else (field o lower) (or_else (field o upper) (VStr []))) ;;
     Normal (trim s)).
Proof.
  unfold pick. rewrite !Get_object. cbn [cbind].
  destruct (ToBoolean (field o lower)) eqn:F.
  - rewrite (or_else_truthy _ _ F). reflexivity.
  - rewrite (or_else_falsy _ _ F). reflexivity.
Qed.

(** [pick] reads the object through the two keys only. *)
Lemma pick_object_ext (o o' : list (jstring * Value)) (lower upper : jstring) :
  lookup lower o' = lookup lower o -> lookup upper o' = lookup upper o ->
  pick (VObj o') lower upper = pick (VObj o) lower upper.
Proof.
  intros L U. rewrite !pick_object. unfold field. rewrite L, U. reflexivity.
Qed.

Lemma pick_falsy_lower (o : list (jstring * Value)) (lower upper : jstring) :
  ToBoolean (field o lower) = false ->
  pick (VObj o) lower upper =
    (s <- call_toString (or_else (field o upper) (VStr [])) ;;
     Normal (trim s)).
Proof.
  intros F. rewrite pick_object, (or_else_falsy _ _ F). reflexivity.
Qed.

Lemma pick_falsy_both (o : list (jstring * Value)) (lower upper : jstring) :
  ToBoolean (field o lower) = false -> ToBoolean (field o upper) = false ->
  pick (VObj o) lower upper = Normal [].
Proof.
  intros F G. rewrite (pick_falsy_lower _ _ _ F), (or_else_falsy _ _ G).
  reflexivity.
Qed.

Lemma field_remove_key (o : list (jstring * Value)) (k : jstring) :
  field (remove_key k o) k = VUndefined.
Proof. unfold field. rewrite lookup_remove_key. reflexivity. Qed.

Lemma field_remove_other (o : list (jstring * Value)) (k k' : jstring) :
  k <> k' -> field (remove_key k o) k' = field o k'.
Proof. intros N. unfold field. rewrite (lookup_remove_other _ _ _ N). reflexivity. Qed.

(** A falsy value under the lowercase key reads like a missing key. *)
Lemma pick_remove_falsy (o : list (jstring * Value)) (lower upper : jstring) :
  lower <> upper -> ToBoolean (field o lower) = false ->
  pick (VObj (remove_key lower o)) lower upper = pick (VObj o) lower upper.
Proof.
  intros N F. rewrite (pick_falsy_lower o _ _ F).
  rewrite pick_falsy_lower by (rewrite field_remove_key; reflexivity).
  rewrite (field_remove_other _ _ _ N). reflexivity.
Qed.

Lemma pick_remove_other (o : list (jstring * Value)) (k lower upper : jstring) :
  k <> lower -> k <> upper ->
  pick (VObj (remove_key k o)) lower upper = pick (VObj o) lower upper.
Proof.
  intros L U. apply pick_object_ext; apply lookup_remove_other; assumption.
Qed.

(** The repair of a reply that is not JSON. *)
Lemma normalize_unparsable (t c : jstring) (e : Exn) :
  t <> [] -> trim t = t -> JSON_parse c = Throw e ->
  normalize (parse_content (VStr c) t) t =
    Normal (match trim c with [] => t | _ :: _ => trim c end, []).
Proof.
  intros T Tr P. unfold parse_content. cbn [ToString ToString_within cbind]. rewrite P.
  unfold normalize. rewrite !pick_object.
  change (field _ (js "findings")) with (or_else (VStr c) (VStr t)).
  change (field _ (js "FINDINGS")) with VUndefined.
  change (field _ (js "impression")) with (VStr []).
  change (field _ (js "IMPRESSION")) with VUndefined.
  destruct c as [|x c'].
  - destruct t as [|y t']; [congruence|].
    cbn [or_else ToBoolean call_toString ToString ToString_within cbind]. rewrite Tr.
    reflexivity.
  - cbn [or_else ToBoolean call_toString ToString ToString_within cbind]. reflexivity.
Qed.

Lemma normalize_null (t : jstring) :
  normalize VNull t = Throw (TypeError_read_property VNull (js "findings")).
Proof. reflexivity. Qed.

(** From [content_received] back to the stages it went through. *)
Lemma content_received_inv (w : World) (ev : Event) (r : Request)
      (req : FetchRequest) (content : Value) :
  request_sent w ev = Some (r, req) ->
  content_received w ev = Some content ->
  exists resp data,
    network w req = Normal resp /\ ok resp = true /\
    resp_json resp = Normal data /\ extract_content data = content.
Proof.
  intros S. unfold content_received. rewrite S.
  destruct (network w req) as [resp|e]; [|discriminate].
  destruct (ok resp) eqn:O; [|discriminate].
  destruct (resp_json resp) as [data|e] eqn:J; [|discriminate].
  intros E; inversion E. exists resp, data. repeat split; trivial.
Qed.

(** The run of a POST whose upstream call succeeded and delivered
    [content]. *)
Lemma handler_content (w : World) (ev : Event) (r : Request)
      (req : FetchRequest) (content : Value) :
  request_sent w ev = Some (r, req) ->
  content_received w ev = Some content ->
  run (handler w ev) =
    (Normal (caught
               (out <- normalize (parse_content content (text r)) (text r) ;;
                Normal (json_response 200 (report_body (fst out) (snd out))))),
     [req]).
Proof.
  intros S C.
  destruct (content_received_inv w ev r req content S C)
    as (resp & data & Net & Ok & Js & <-).
  destruct (request_sent_post w ev r req S) as [P _].
  rewrite (handler_post w ev P), (handler_try_sent w ev r req S), Net.
  cbn [fst snd cbind]. unfold respond. rewrite Ok, Js. reflexivity.
Qed.

(** What a result of [normalize] on an object was computed from. *)
Lemma normalize_object_inv (o : list (jstring * Value)) (t f i : jstring) :
  normalize (VObj o) t = Normal (f, i) ->
  exists sf si,
    call_toString (or_else (field o (js "findings"))
                     (or_else (field o (js "FINDINGS")) (VStr []))) = Normal sf /\
    call_toString (or_else (field o (js "impression"))
                     (or_else (field o (js "IMPRESSION")) (VStr []))) = Normal si /\
    f = match trim sf with [] => t | _ :: _ => trim sf end /\
    i = trim si.
Proof.
  unfold normalize. rewrite !pick_object.
  destruct (call_toString _) as [sf|e]; cbn [cbind]; [|discriminate].
  destruct (call_toString _) as [si|e]; cbn [cbind]; [|discriminate].
  intros E; inversion E. exists sf, si. repeat split.
Qed.

Lemma or_else_string (s : jstring) (b : Value) :
  s <> [] -> or_else (VStr s) b = VStr s.
Proof. destruct s; [congruence | reflexivity]. Qed.

End Normalization.

Section Claims.

Context {RT : Runtime}.

(** C8.  Every OPTIONS request is answered with status 204, an empty body
    and exactly the three CORS headers (any origin; the headers
    Content-Type and Authorization; the methods POST and OPTIONS), so with
    no Content-Type header; nothing is sent upstream. *)
Theorem options_preflight (w : World) (b : option jstring) :
  exists r,
    run (handler w (mkEvent (js "OPTIONS") b)) = (Normal r, []) /\
    statusCode r = 204 /\
    body r = [] /\
    headers r =
      [ (js "Access-Control-Allow-Origin", js "*");
        (js "Access-Control-Allow-Headers", js "Content-Type, Authorization");
        (js "Access-Control-Allow-Methods", js "POST, OPTIONS") ] /\
    ~ In (js "Content-Type") (map fst (headers r)).
Proof.
  exists (mkResponse 204 corsHeaders []).
  split; [apply handler_options; reflexivity|].
  repeat split.
  cbn [headers]. intros H.
  repeat (destruct H as [H|H]; [vm_compute in H; discriminate H|]).
  exact H.
Qed.

(** C6.  When the request reaches the upstream call and the response has
    a failure status, its body being read as the text [d], the handler
    answers 502 with the body [{error: "DeepSeek error", details: d}] and
    has called [fetch] exactly once. *)
Theorem upstream_failure_502 (w : World) (ev : Event) (r : Request)
        (req : FetchRequest) (resp : FetchResponse) (d : jstring) :
  request_sent w ev = Some (r, req) ->
  network w req = Normal resp ->
  ok resp = false ->
  resp_text resp = Normal d ->
  run (handler w ev) =
    (Normal (json_response 502
               (DObj [ (js "error", DStr (js "DeepSeek error"));
                       (js "details", DStr d) ])),
     [req]).
Proof.
  intros S Net Ok Txt.
  destruct (request_sent_post w ev r req S) as [P _].
  rewrite (handler_post w ev P), (handler_try_sent w ev r req S), Net.
  cbn [fst snd cbind]. unfold respond. rewrite Ok, Txt. reflexivity.
Qed.

(** C1.  Whenever the handler answers 200, the request was a POST whose
    trimmed text is not empty, and the body is a report whose findings
    are a non-empty string, whatever the upstream service returned. *)
Theorem findings_never_empty (w : World) (ev : Event) (resp : Response)
        (log : list FetchRequest) :
  run (handler w ev) = (Normal resp, log) ->
  statusCode resp = 200 ->
  exists t findings impression,
    httpMethod ev = js "POST" /\
    request_text ev = Normal t /\ t <> [] /\
    body resp = JSON_stringify (report_body findings impression) /\
    findings <> [].
Proof.
  intros Run St.
  destruct (jstring_eqb (httpMethod ev) (js "OPTIONS")) eqn:O.
  { apply jstring_eqb_eq in O. rewrite (handler_options w ev O) in Run.
    inversion Run; subst. discriminate St. }
  destruct (jstring_eqb (httpMethod ev) (js "POST")) eqn:P.
  2:{ apply jstring_eqb_neq in O, P.
      rewrite (handler_other w ev O P) in Run.
      inversion Run; subst. discriminate St. }
  apply jstring_eqb_eq in P. rewrite (handler_post w ev P) in Run.
  destruct (handler_try_cases w ev P)
    as [[e T] | [(r & _ & _ & T) | [(r & _ & _ & _ & T) | (r & req & S & T)]]];
    rewrite T in Run; cbn [fst snd caught] in Run;
    inversion Run; subst; clear Run; try discriminate St.
  destruct (request_sent_post w ev r req S) as (_ & R & Tx).
  destruct (cbind (network w req) (respond (text r))) as [a|e] eqn:C;
    cbn [caught] in St |- *; [|discriminate St].
  destruct (network w req) as [rsp|e]; [|discriminate C]. cbn [cbind] in C.
  destruct (respond_cases (text r) rsp a C)
    as [(d & _ & _ & ->) | (data & f & i & _ & _ & Nz & ->)];
    [discriminate St|].
  exists (text r), f, i. repeat split; trivial.
  - apply read_request_text, R.
  - apply (normalize_findings_nonempty _ _ _ _ Tx Nz).
Qed.

(** C4.  For every event the handler returns a response and throws
    nothing: the response is well formed, and when the request is a POST
    and the [try] block throws [e] (a request body that is not JSON, a
    rejected [fetch], an upstream body of an unexpected shape), the
    response is 500 with the body
    [{error: "Server exception", details: String(e)}]. *)
Theorem handler_total (w : World) (ev : Event) :
  exists resp log,
    run (handler w ev) = (Normal resp, log) /\
    well_formed resp /\
    (httpMethod ev = js "POST" ->
     forall e, fst (run (handler_try w ev)) = Throw e ->
       resp = json_response 500
                (DObj [ (js "error", DStr (js "Server exception"));
                        (js "details", DStr (Error_toString e)) ])).
Proof.
  destruct (jstring_eqb (httpMethod ev) (js "OPTIONS")) eqn:O.
  { apply jstring_eqb_eq in O. rewrite (handler_options w ev O).
    do 2 eexists. split; [reflexivity|]. split; [apply well_formed_preflight|].
    intros P. rewrite O in P. vm_compute in P. discriminate P. }
  destruct (jstring_eqb (httpMethod ev) (js "POST")) eqn:P.
  2:{ apply jstring_eqb_neq in O, P. rewrite (handler_other w ev O P).
      do 2 eexists. split; [reflexivity|]. split.
      - apply well_formed_json. simpl; tauto.
      - intros P'. contradiction. }
  apply jstring_eqb_eq in P. rewrite (handler_post w ev P).
  do 2 eexists. split; [reflexivity|]. split.
  2:{ intros _ e E. rewrite E. reflexivity. }
  destruct (handler_try_cases w ev P)
    as [[e T] | [(r & _ & _ & T) | [(r & _ & _ & _ & T) | (r & req & S & T)]]];
    rewrite T; cbn [fst caught];
    try (apply well_formed_json; simpl; tauto).
  destruct (network w req) as [rsp|e]; cbn [cbind];
    [|apply well_formed_json; simpl; tauto].
  destruct (respond (text r) rsp) as [a|e] eqn:C; cbn [caught];
    [|apply well_formed_json; simpl; tauto].
  destruct (respond_cases (text r) rsp a C)
    as [(d & _ & _ & ->) | (data & f & i & _ & _ & _ & ->)];
    apply well_formed_json; simpl; tauto.
Qed.

(** C2, as amended.  When the request reaches the upstream call, the
    call succeeds and the extracted content is a string [c] that
    [JSON.parse] rejects, the handler answers 200 with findings equal to
    [c] trimmed, or to the trimmed input text when [c] trimmed is empty,
    and with an empty impression. *)
Theorem unparsable_content_fallback (w : World) (ev : Event) (r : Request)
        (req : FetchRequest) (c : jstring) (e : Exn) :
  request_sent w ev = Some (r, req) ->
  content_received w ev = Some (VStr c) ->
  JSON_parse c = Throw e ->
  run (handler w ev) =
    (Normal (json_response 200
               (DObj [ (js "findings",
                        DStr (match trim c with
                              | [] => text r
                              | _ :: _ => trim c
                              end));
                       (js "impression", DStr []) ])),
     [req]).
Proof.
  intros S C P.
  destruct (request_sent_post w ev r req S) as (_ & R & T).
  rewrite (handler_content w ev r req _ S C).
  rewrite (normalize_unparsable (text r) c e T (read_request_trimmed ev r R) P).
  reflexivity.
Qed.

(** C9.  When the request reaches the upstream call, the call succeeds and
    the extracted content is a string that parses to [null], reading
    [parsed.findings] throws: the handler answers 500 with the error
    "Server exception", not a degraded 200. *)
Theorem null_content_server_exception (w : World) (ev : Event)
        (r : Request) (req : FetchRequest) (c : jstring) :
  request_sent w ev = Some (r, req) ->
  content_received w ev = Some (VStr c) ->
  JSON_parse c = Normal VNull ->
  run (handler w ev) =
    (Normal (json_response 500
               (DObj [ (js "error", DStr (js "Server exception"));
                       (js "details",
                        DStr (Error_toString
                                (TypeError_read_property VNull
                                   (js "findings")))) ])),
     [req]).
Proof.
  intros S C P.
  rewrite (handler_content w ev r req _ S C).
  unfold parse_content. cbn [ToString ToString_within cbind]. rewrite P.
  rewrite normalize_null. reflexivity.
Qed.

Local Open Scope completion_scope.

(** C3.  Whenever normalization of a parsed object returns a report: a
    non-empty string under [findings], or under [FINDINGS] when the object
    has no [findings], gives the findings, trimmed (the input text when
    nothing is left); a non-empty string under [impression], or under
    [IMPRESSION] when the object has no [impression], gives the impression,
    trimmed; a value that is not a string is converted to one ([true]
    becomes the string [true], a number its rendering, trimmed); and with
    neither spelling of a key in the object the field falls back (findings
    to the text, impression to the empty string) whatever other keys, such
    as [Findings], the object has. *)
Theorem normalize_key_variants (o : list (jstring * Value))
        (t f i : jstring) :
  normalize (VObj o) t = Normal (f, i) ->
  (forall s, s <> [] -> has_property o (js "findings") (VStr s) ->
     exists out, trimmed_from s out /\
       f = match out with [] => t | _ :: _ => out end)
  /\ (forall s, s <> [] -> no_property o (js "findings") ->
        has_property o (js "FINDINGS") (VStr s) ->
        exists out, trimmed_from s out /\
          f = match out with [] => t | _ :: _ => out end)
  /\ (forall s, s <> [] -> has_property o (js "impression") (VStr s) ->
        trimmed_from s i)
  /\ (forall s, s <> [] -> no_property o (js "impression") ->
        has_property o (js "IMPRESSION") (VStr s) -> trimmed_from s i)
  /\ (has_property o (js "findings") (VBool true) -> f = js "true")
  /\ (forall n, has_property o (js "impression") (VNum n) ->
        rounds_to_zero n = false -> trimmed_from (Number_toString n) i)
  /\ (no_property o (js "findings") -> no_property o (js "FINDINGS") -> f = t)
  /\ (no_property o (js "impression") -> no_property o (js "IMPRESSION") ->
      i = []).
Proof.
  intros Nz.
  destruct (normalize_object_inv o t f i Nz) as (sf & si & Cf & Ci & -> & ->).
  repeat split.
  - intros s Sn H. rewrite (field_has_property _ _ _ H) in Cf.
    rewrite (or_else_string s _ Sn) in Cf. inversion Cf; subst.
    exists (trim sf). split; [apply trim_trimmed_from | reflexivity].
  - intros s Sn N H.
    rewrite (field_no_property _ _ N), (field_has_property _ _ _ H) in Cf.
    cbn [or_else ToBoolean] in Cf. rewrite (or_else_string s _ Sn) in Cf.
    inversion Cf; subst.
    exists (trim sf). split; [apply trim_trimmed_from | reflexivity].
  - intros s Sn H. rewrite (field_has_property _ _ _ H) in Ci.
    rewrite (or_else_string s _ Sn) in Ci. inversion Ci; subst.
    apply trim_trimmed_from.
  - intros s Sn N H.
    rewrite (field_no_property _ _ N), (field_has_property _ _ _ H) in Ci.
    cbn [or_else ToBoolean] in Ci. rewrite (or_else_string s _ Sn) in Ci.
    inversion Ci; subst. apply trim_trimmed_from.
  - intros H. rewrite (field_has_property _ _ _ H) in Cf.
    inversion Cf; subst. reflexivity.
  - intros n H Z. rewrite (field_has_property _ _ _ H) in Ci.
    unfold or_else in Ci. cbn [ToBoolean] in Ci. rewrite Z in Ci.
    inversion Ci; subst. apply trim_trimmed_from.
  - intros N N'.
    rewrite (field_no_property _ _ N), (field_no_property _ _ N') in Cf.
    inversion Cf; subst. reflexivity.
  - intros N N'.
    rewrite (field_no_property _ _ N), (field_no_property _ _ N') in Ci.
    inversion Ci; subst. reflexivity.
Qed.

(** C10.  Whenever normalization of a parsed object returns a report and
    the object has a falsy value under [findings]: a non-empty string
    under [FINDINGS] gives the findings, trimmed; with a falsy value or no
    property under [FINDINGS] the findings are the input text; and any
    object without [findings] that agrees on every other key gives the same
    report.  The same holds of [impression] and [IMPRESSION], the fallback
    being the empty string.  The JSON values [false], [0], [null] and the
    empty string are falsy. *)
Theorem falsy_value_as_absent (o : list (jstring * Value))
        (t f i : jstring) (v : Value) :
  normalize (VObj o) t = Normal (f, i) ->
  ToBoolean v = false ->
  (has_property o (js "findings") v ->
     (forall s, s <> [] -> has_property o (js "FINDINGS") (VStr s) ->
        exists out, trimmed_from s out /\
          f = match out with [] => t | _ :: _ => out end)
     /\ (forall u, has_property o (js "FINDINGS") u -> ToBoolean u = false ->
           f = t)
     /\ (no_property o (js "FINDINGS") -> f = t)
     /\ (forall o',
           no_property o' (js "findings") ->
           (forall k x, k <> js "findings" ->
              (has_property o' k x <-> has_property o k x)) ->
           normalize (VObj o') t = Normal (f, i)))
  /\ (has_property o (js "impression") v ->
        (forall s, s <> [] -> has_property o (js "IMPRESSION") (VStr s) ->
           trimmed_from s i)
        /\ (forall u, has_property o (js "IMPRESSION") u ->
              ToBoolean u = false -> i = [])
        /\ (no_property o (js "IMPRESSION") -> i = [])
        /\ (forall o',
              no_property o' (js "impression") ->
              (forall k x, k <> js "impression" ->
                 (has_property o' k x <-> has_property o k x)) ->
              normalize (VObj o') t = Normal (f, i)))
  /\ (v <- JSON_parse (js "false") ;; Normal (ToBoolean v)) = Normal false
  /\ (v <- JSON_parse (js "0") ;; Normal (ToBoolean v)) = Normal false
  /\ (v <- JSON_parse (js "null") ;; Normal (ToBoolean v)) = Normal false
  /\ (v <- JSON_parse (jsq "''") ;; Normal (ToBoolean v)) = Normal false.
Proof.
  intros Nz Fv.
  assert (K : forall a b : jstring, jstring_eqb a b = false -> a <> b)
    by (intros a b; apply jstring_eqb_neq).
  assert (FF : js "FINDINGS" <> js "findings") by (apply K; reflexivity).
  assert (FI : js "impression" <> js "findings") by (apply K; reflexivity).
  assert (FJ : js "IMPRESSION" <> js "findings") by (apply K; reflexivity).
  assert (II : js "IMPRESSION" <> js "impression") by (apply K; reflexivity).
  assert (IF : js "findings" <> js "impression") by (apply K; reflexivity).
  assert (IG : js "FINDINGS" <> js "impression") by (apply K; reflexivity).
  pose proof Nz as Nz0.
  destruct (normalize_object_inv o t f i Nz) as (sf & si & Cf & Ci & Ef & Ei).
  split; [|split; [|repeat split]].
  - intros H. rewrite (field_has_property _ _ _ H) in Cf.
    rewrite (or_else_falsy _ _ Fv) in Cf. repeat split.
    + intros s Sn U. rewrite (field_has_property _ _ _ U) in Cf.
      rewrite (or_else_string s _ Sn) in Cf. inversion Cf; subst.
      exists (trim sf). split; [apply trim_trimmed_from | reflexivity].
    + intros u U Fu. rewrite (field_has_property _ _ _ U) in Cf.
      rewrite (or_else_falsy _ _ Fu) in Cf. inversion Cf; subst. reflexivity.
    + intros N. rewrite (field_no_property _ _ N) in Cf.
      inversion Cf; subst. reflexivity.
    + intros o' N Same. rewrite <- Nz0. unfold normalize.
      rewrite (pick_object_ext o o' (js "impression") (js "IMPRESSION"))
        by (apply lookup_same_properties; intros x; apply Same; assumption).
      rewrite !(pick_object _ (js "findings")).
      rewrite (field_no_property _ _ N), (field_has_property _ _ _ H).
      rewrite (or_else_falsy _ _ Fv). cbn [or_else ToBoolean].
      unfold field.
      rewrite (lookup_same_properties o o' (js "FINDINGS"))
        by (intros x; apply Same; assumption).
      reflexivity.
  - intros H. rewrite (field_has_property _ _ _ H) in Ci.
    rewrite (or_else_falsy _ _ Fv) in Ci. repeat split.
    + intros s Sn U. rewrite (field_has_property _ _ _ U) in Ci.
      rewrite (or_else_string s _ Sn) in Ci. inversion Ci; subst.
      apply trim_trimmed_from.
    + intros u U Fu. rewrite (field_has_property _ _ _ U) in Ci.
      rewrite (or_else_falsy _ _ Fu) in Ci. inversion Ci; subst. reflexivity.
    + intros N. rewrite (field_no_property _ _ N) in Ci.
      inversion Ci; subst. reflexivity.
    + intros o' N Same. rewrite <- Nz0. unfold normalize.
      rewrite (pick_object_ext o o' (js "findings") (js "FINDINGS"))
        by (apply lookup_same_properties; intros x; apply Same; assumption).
      rewrite !(pick_object _ (js "impression")).
      rewrite (field_no_property _ _ N), (field_has_property _ _ _ H).
      rewrite (or_else_falsy _ _ Fv). cbn [or_else ToBoolean].
      unfold field.
      rewrite (lookup_same_properties o o' (js "IMPRESSION"))
        by (intros x; apply Same; assumption).
      reflexivity.
Qed.

(** C5, as amended.  For a POST whose body is read without an exception
    (it parses, is not [null], and its text and template convert to
    strings): an empty trimmed text yields 400 [{error: "Missing text"}]
    whether or not the key is set, and a non-empty trimmed text with the
    key unset yields 500 [{error: "Server missing DEEPSEEK_API_KEY"}];
    neither calls [fetch]. *)
Theorem validation_before_key_check (w : World) (ev : Event) (r : Request) :
  httpMethod ev = js "POST" ->
  read_request ev = Normal r ->
  (text r = [] ->
     run (handler w ev) =
       (Normal (json_response 400
                  (DObj [ (js "error", DStr (js "Missing text")) ])), []))
  /\ (text r <> [] -> key_unset (env w) = true ->
        run (handler w ev) =
          (Normal (json_response 500
                     (DObj [ (js "error",
                              DStr (js "Server missing DEEPSEEK_API_KEY")) ])),
           [])).
Proof.
  intros P R. rewrite (handler_post w ev P). split.
  - intros T. rewrite (handler_try_missing_text w ev r R T). reflexivity.
  - intros T K. rewrite (handler_try_missing_key w ev r R T K). reflexivity.
Qed.


End Claims.

(* ================================================================== *)
(** ** Further properties of the handler *)

Section Outcome.

Context {RT : Runtime}.

Lemma request_sent_request (w : World) (ev : Event) (r : Request)
      (req : FetchRequest) :
  request_sent w ev = Some (r, req) ->
  exists key user,
    DEEPSEEK_API_KEY (env w) = Some key /\ key <> [] /\
    user_prompt r = Normal user /\
    req = chat_request key
            (env_or (DEEPSEEK_BASE_URL (env w)) (js "https://api.deepseek.com"))
            (env_or (DEEPSEEK_MODEL (env w)) (js "deepseek-chat")) user.
Proof.
  unfold request_sent.
  destruct (jstring_eqb (httpMethod ev) (js "POST")); [|discriminate].
  destruct (read_request ev) as [r0|e]; [|discriminate].
  destruct (text r0) as [|t0 ts]; [discriminate|].
  destruct (DEEPSEEK_API_KEY (env w)) as [[|c key]|]; try discriminate.
  destruct (user_prompt r0) as [user|e] eqn:U; [|discriminate].
  intros E; inversion E; subst. exists (c :: key), user.
  repeat split; trivial. discriminate.
Qed.

Lemma handler_try_not_sent (w : World) (ev : Event) :
  httpMethod ev = js "POST" -> request_sent w ev = None ->
  snd (run (handler_try w ev)) = [].
Proof.
  intros P N.
  destruct (handler_try_cases w ev P)
    as [[e T] | [(r & _ & _ & T) | [(r & _ & _ & _ & T) | (r & req & S & _)]]];
    try (rewrite T; reflexivity).
  rewrite S in N. discriminate N.
Qed.

(** The run of a POST that is sent upstream. *)
Lemma handler_sent (w : World) (ev : Event) (r : Request)
      (req : FetchRequest) :
  request_sent w ev = Some (r, req) ->
  run (handler w ev) =
    (Normal (caught (cbind (network w req) (respond (text r)))), [req]).
Proof.
  intros S. destruct (request_sent_post w ev r req S) as [P _].
  rewrite (handler_post w ev P), (handler_try_sent w ev r req S). reflexivity.
Qed.

(** The only way to a 200. *)
Lemma handler_200_inv (w : World) (ev : Event) (resp : Response)
      (log : list FetchRequest) :
  run (handler w ev) = (Normal resp, log) -> statusCode resp = 200 ->
  exists r req rsp data findings impression,
    request_sent w ev = Some (r, req) /\ log = [req] /\
    network w req = Normal rsp /\ ok rsp = true /\
    resp_json rsp = Normal data /\
    normalize (parse_content (extract_content data) (text r)) (text r)
      = Normal (findings, impression) /\
    resp = json_response 200 (report_body findings impression).
Proof.
  intros Run St.
  destruct (jstring_eqb (httpMethod ev) (js "OPTIONS")) eqn:O.
  { apply jstring_eqb_eq in O. rewrite (handler_options w ev O) in Run.
    inversion Run; subst. discriminate St. }
  destruct (jstring_eqb (httpMethod ev) (js "POST")) eqn:P.
  2:{ apply jstring_eqb_neq in O, P.
      rewrite (handler_other w ev O P) in Run.
      inversion Run; subst. discriminate St. }
  apply jstring_eqb_eq in P. rewrite (handler_post w ev P) in Run.
  destruct (handler_try_cases w ev P)
    as [[e T] | [(r & _ & _ & T) | [(r & _ & _ & _ & T) | (r & req & S & T)]]];
    rewrite T in Run; cbn [fst snd caught] in Run;
    inversion Run; subst; clear Run; try discriminate St.
  destruct (network w req) as [rsp|e] eqn:Net; [|discriminate St].
  cbn [cbind] in St |- *.
  destruct (respond (text r) rsp) as [a|e] eqn:C; [|discriminate St].
  cbn [caught] in St |- *.
  destruct (respond_cases (text r) rsp a C)
    as [(d & _ & _ & ->) | (data & f & i & Ok & Js & Nz & ->)];
    [discriminate St|].
  exists r, req, rsp, data, f, i. repeat split; trivial.
Qed.

End Outcome.

Section Coercions.

Context {RT : Runtime}.

(** ToString throws only for an object with an own [toString], met at any
    depth of nested arrays, or for arrays nested deeper than the call
    stack allows. *)
Lemma ToString_within_throws (v : Value) :
  forall depth e,
    ToString_within depth v = Throw e ->
    e = TypeError_to_primitive \/ e = RangeError_call_stack.
Proof.
  induction v as [| | b | n | s | l IH | o _] using Value_nested_ind;
    intros depth e; cbn [ToString_within]; try discriminate.
  - destruct depth as [|deeper]; [intros E; inversion E; auto|].
    generalize true.
    induction IH as [|x r Hx _ IHr]; intros first; [discriminate|].
    assert (Hx' : forall e0,
               match x with
               | VUndefined | VNull => Normal []
               | _ => ToString_within deeper x
               end = Throw e0 ->
               e0 = TypeError_to_primitive \/ e0 = RangeError_call_stack).
    { intros e0. destruct x; try discriminate; apply Hx. }
    destruct (match x with
              | VUndefined | VNull => Normal []
              | _ => ToString_within deeper x
              end) as [sx|e0]; cbn [cbind].
    + match goal with
      | |- cbind ?j _ = _ -> _ => destruct j as [sr|e1] eqn:J
      end; cbn [cbind]; [discriminate|].
      intros E; inversion E; subst. apply (IHr false). exact J.
    + intros E; inversion E; subst. apply Hx'. reflexivity.
  - destruct (lookup (js "toString") o); [|discriminate].
    intros E; inversion E; auto.
Qed.

Lemma ToString_throws (v : Value) (e : Exn) :
  ToString v = Throw e ->
  e = TypeError_to_primitive \/ e = RangeError_call_stack.
Proof. apply ToString_within_throws. Qed.

Lemma call_toString_throws (v : Value) (e : Exn) :
  ToBoolean v = true -> call_toString v = Throw e ->
  e = TypeError_not_a_function (js "toString")
  \/ e = TypeError_to_primitive \/ e = RangeError_call_stack.
Proof.
  destruct v; cbn [ToBoolean call_toString]; try discriminate.
  - intros _ H. right. apply (ToString_throws _ _ H).
  - intros _. destruct (lookup (js "toString") props); [|discriminate].
    intros E; inversion E; auto.
Qed.

Lemma string_or_empty_throws (x : Value) (e : Exn) :
  string_or_empty x = Throw e ->
  e = TypeError_not_a_function (js "toString")
  \/ e = TypeError_to_primitive \/ e = RangeError_call_stack.
Proof.
  unfold string_or_empty, or_else.
  destruct (ToBoolean x) eqn:T; [apply call_toString_throws, T | discriminate].
Qed.

Lemma string_or_empty_plain (x : Value) :
  string_or_absent x = true -> string_or_empty x = Normal (spec_default x).
Proof. destruct x as [| | | | [|c s] | |]; try discriminate; reflexivity. Qed.

Lemma Get_defined (b : Value) (k : jstring) :
  b <> VNull -> b <> VUndefined -> Get b k = Normal (Get_opt b k).
Proof. destruct b; try congruence; reflexivity. Qed.

Lemma value_step_defined elements members s v r :
  value_step elements members s = Some (v, r) -> v <> VUndefined.
Proof.
  unfold value_step, parse_literal.
  destruct (skip_ws s) as [|c r0]; [discriminate|].
  repeat match goal with
         | |- context [if ?b then _ else _] => destruct b
         | |- context [match ?x with _ => _ end] => destruct x
         end;
    try discriminate; intros E; inversion E; discriminate.
Qed.

Lemma parse_body_defined (ev : Event) (b : Value) :
  parse_body ev = Normal b -> b <> VUndefined.
Proof.
  unfold parse_body.
  destruct (event_body ev) as [[|c s]|];
    try (intros E; inversion E; discriminate).
  unfold JSON_parse.
  destruct (parse_value _ (c :: s)) as [[v r]|] eqn:V; [|discriminate].
  destruct (skip_ws r); [|discriminate].
  intros E; inversion E; subst.
  replace (2 * List.length (c :: s) + 2)%nat
    with (S (2 * List.length (c :: s) + 1)) in V by lia.
  cbn [parse_value] in V. apply (value_step_defined _ _ _ _ _ V).
Qed.

Lemma pick_trimmed (parsed : Value) (lower upper x : jstring) :
  pick parsed lower upper = Normal x -> trim x = x.
Proof.
  unfold pick.
  destruct (Get parsed lower) as [a|e]; cbn [cbind]; [|discriminate].
  match goal with
  | |- cbind ?m _ = _ -> _ => destruct m as [y|e]
  end; cbn [cbind]; [|discriminate].
  destruct (call_toString y) as [s|e]; cbn [cbind]; [|discriminate].
  intros E; inversion E. apply trim_idempotent.
Qed.

End Coercions.

(* ================================================================== *)
(** ** JSON.stringify then JSON.parse *)

Section RoundTrip.

Lemma hex_value_digit (n : N) : n < 16 -> hex_value (hex_digit n) = Some n.
Proof.
  intros L. unfold hex_value, hex_digit, is_digit.
  destruct (N.ltb_spec n 10) as [H|H].
  - replace (48 <=? 48 + n) with true by (symmetry; apply N.leb_le; lia).
    replace (48 + n <=? 57) with true by (symmetry; apply N.leb_le; lia).
    cbn [andb]. f_equal. lia.
  - replace (87 + n <=? 57) with false by (symmetry; apply N.leb_gt; lia).
    rewrite andb_false_r.
    replace (97 <=? 87 + n) with true by (symmetry; apply N.leb_le; lia).
    replace (87 + n <=? 102) with true by (symmetry; apply N.leb_le; lia).
    cbn [andb]. f_equal. lia.
Qed.

Lemma hex4_digits (c : codeunit) :
  c < 65536 ->
  hex4 (hex_digit (c / 4096 mod 16)) (hex_digit (c / 256 mod 16))
       (hex_digit (c / 16 mod 16)) (hex_digit (c mod 16)) = Some c.
Proof.
  intros L. unfold hex4.
  rewrite !hex_value_digit by (apply N.mod_lt; discriminate).
  f_equal.
  replace (c / 4096) with (c / 16 / 16 / 16)
    by (rewrite !N.Div0.div_div; reflexivity).
  replace (c / 256) with (c / 16 / 16)
    by (rewrite N.Div0.div_div; reflexivity).
  assert (D : c / 16 / 16 / 16 < 16)
    by (repeat (apply N.Div0.div_lt_upper_bound); lia).
  rewrite (N.mod_small _ 16 D).
  generalize (N.div_mod c 16 ltac:(discriminate)).
  generalize (N.div_mod (c / 16) 16 ltac:(discriminate)).
  generalize (N.div_mod (c / 16 / 16) 16 ltac:(discriminate)).
  generalize (c mod 16) (c / 16 mod 16) (c / 16 / 16 mod 16).
  generalize (c / 16 / 16 / 16).
  generalize (c / 16 / 16). generalize (c / 16).
  intros. lia.
Qed.

(** An escape sequence reads back as its code unit. *)
Lemma parse_chars_unicode (c : codeunit) (t acc : jstring) :
  c < 65536 ->
  parse_chars (unicode_escape c ++ t) acc = parse_chars t (c :: acc).
Proof.
  intros L. unfold unicode_escape. cbn [app parse_chars].
  change (92 =? 34) with false. change (92 =? 92) with true.
  change (117 =? 117) with true. cbn iota.
  rewrite (hex4_digits c L). reflexivity.
Qed.

Lemma parse_chars_raw (c : codeunit) (t acc : jstring) :
  (c =? 34) = false -> (c =? 92) = false -> (c <? 32) = false ->
  parse_chars (c :: t) acc = parse_chars t (c :: acc).
Proof. intros A B C. cbn [parse_chars]. rewrite A, B, C. reflexivity. Qed.

Lemma surrogate_raw (c : codeunit) :
  is_high_surrogate c = true \/ is_low_surrogate c = true ->
  (c =? 34) = false /\ (c =? 92) = false /\ (c <? 32) = false /\ c < 65536.
Proof.
  unfold is_high_surrogate, is_low_surrogate.
  intros [H|H]; apply andb_prop in H; destruct H as [A B];
    apply N.leb_le in A, B;
    (repeat split; [apply N.eqb_neq | apply N.eqb_neq | apply N.ltb_ge |]; lia).
Qed.

Lemma parse_chars_escape_unit (c : codeunit) (t acc : jstring) :
  is_high_surrogate c = false -> is_low_surrogate c = false ->
  parse_chars (escape_unit c ++ t) acc = parse_chars t (c :: acc).
Proof.
  intros _ _. unfold escape_unit.
  destruct (N.eqb_spec c 8) as [->|N8]; [reflexivity|].
  destruct (N.eqb_spec c 9) as [->|N9]; [reflexivity|].
  destruct (N.eqb_spec c 10) as [->|N10]; [reflexivity|].
  destruct (N.eqb_spec c 12) as [->|N12]; [reflexivity|].
  destruct (N.eqb_spec c 13) as [->|N13]; [reflexivity|].
  destruct (N.eqb_spec c 34) as [->|N34]; [reflexivity|].
  destruct (N.eqb_spec c 92) as [->|N92]; [reflexivity|].
  destruct (N.ltb_spec c 32) as [L|L].
  - apply parse_chars_unicode. lia.
  - apply parse_chars_raw;
      [apply N.eqb_neq | apply N.eqb_neq | apply N.ltb_ge]; assumption.
Qed.

(** A quoted string reads back as the string, whatever its code units. *)
Lemma parse_chars_quote (n : nat) :
  forall s t acc,
    (List.length s <= n)%nat ->
    parse_chars (quote_chars s ++ 34 :: t) acc = Some (rev acc ++ s, t).
Proof.
  induction n as [|n IH]; intros [|c r] t acc L; simpl in L; try lia;
    try (cbn [quote_chars app parse_chars]; change (34 =? 34) with true;
         cbn iota; rewrite app_nil_r; reflexivity).
  assert (STEP : forall u,
             parse_chars (u ++ quote_chars r ++ 34 :: t) acc
             = parse_chars (quote_chars r ++ 34 :: t) (c :: acc) ->
             parse_chars ((u ++ quote_chars r) ++ 34 :: t) acc
             = Some (rev acc ++ c :: r, t)).
  { intros u E. rewrite <- app_assoc, E, IH by lia.
    cbn [rev]. rewrite <- app_assoc. reflexivity. }
  cbn [quote_chars].
  destruct (is_high_surrogate c) eqn:H.
  - destruct (surrogate_raw c (or_introl H)) as (A & B & C & D).
    destruct r as [|d r'].
    + rewrite (parse_chars_unicode c _ acc D).
      cbn [parse_chars]. change (34 =? 34) with true. reflexivity.
    + destruct (is_low_surrogate d) eqn:Ld.
      * destruct (surrogate_raw d (or_intror Ld)) as (A' & B' & C' & _).
        cbn [app]. rewrite (parse_chars_raw c _ acc A B C).
        rewrite (parse_chars_raw d _ (c :: acc) A' B' C').
        simpl in L. rewrite IH by lia. cbn [rev].
        rewrite <- !app_assoc. reflexivity.
      * apply STEP. apply parse_chars_unicode, D.
  - destruct (is_low_surrogate c) eqn:Lc.
    + destruct (surrogate_raw c (or_intror Lc)) as (_ & _ & _ & D).
      apply STEP. apply parse_chars_unicode, D.
    + apply STEP. apply parse_chars_escape_unit; assumption.
Qed.

Lemma value_step_string elements members (v t : jstring) :
  value_step elements members (quote v ++ t) = Some (VStr v, t).
Proof.
  unfold quote. rewrite <- !app_assoc. cbn [app]. unfold value_step.
  cbn [skip_ws]. change (is_json_ws 34) with false. cbn iota.
  change (34 =? 123) with false. change (34 =? 91) with false.
  change (34 =? 34) with true. cbn iota.
  match goal with
  | |- match ?X with _ => _ end = _ =>
      replace X with (Some (v, t))
        by (symmetry; apply (parse_chars_quote _ v t [] (le_n _)))
  end.
  reflexivity.
Qed.

(** One member [key:value] with a string value, then what follows it. *)
Lemma members_step_string value members (k t : jstring) :
  members_step value members (quote k ++ 58 :: t) =
    match value t with
    | None => None
    | Some (v, r3) =>
        match skip_ws r3 with
        | c :: r4 =>
            if c =? 44 then
              match members r4 with
              | Some (m, r5) => Some ((k, v) :: m, r5)
              | None => None
              end
            else if c =? 125 then Some ([(k, v)], r4)
            else None
        | [] => None
        end
    end.
Proof.
  unfold quote. rewrite <- !app_assoc. cbn [app]. unfold members_step.
  cbn [skip_ws]. change (is_json_ws 34) with false. cbn iota.
  change (34 =? 34) with true. cbn iota.
  match goal with
  | |- match ?X with _ => _ end = _ =>
      replace X with (Some (k, 58 :: t))
        by (symmetry; apply (parse_chars_quote _ k (58 :: t) [] (le_n _)))
  end.
  cbn [app skip_ws]. change (is_json_ws 58) with false. cbn iota.
  change (58 =? 58) with true. reflexivity.
Qed.

Lemma value_step_object elements members (k t : jstring) :
  value_step elements members (123 :: quote k ++ t) =
    match members (quote k ++ t) with
    | Some (m, r) => Some (VObj m, r)
    | None => None
    end.
Proof. reflexivity. Qed.

Lemma parse_value_S (f : nat) (s : jstring) :
  parse_value (S f) s = value_step (parse_elements f) (parse_members f) s.
Proof. reflexivity. Qed.

Lemma parse_members_S (f : nat) (s : jstring) :
  parse_members (S f) s = members_step (parse_value f) (parse_members f) s.
Proof. reflexivity. Qed.

Context {RT : Runtime}.

Lemma stringify_one_field (k v : jstring) :
  JSON_stringify (DObj [ (k, DStr v) ])
  = 123 :: quote k ++ 58 :: quote v ++ [125].
Proof.
  cbn [JSON_stringify]. rewrite <- !app_assoc. reflexivity.
Qed.

Lemma stringify_two_fields (k1 v1 k2 v2 : jstring) :
  JSON_stringify (DObj [ (k1, DStr v1); (k2, DStr v2) ])
  = 123 :: quote k1 ++ 58 :: quote v1 ++ 44 :: quote k2 ++ 58 :: quote v2
        ++ [125].
Proof.
  cbn [JSON_stringify]. rewrite <- !app_assoc. reflexivity.
Qed.

Lemma parse_one_field (k v : jstring) :
  JSON_parse (JSON_stringify (DObj [ (k, DStr v) ]))
  = Normal (VObj [ (k, VStr v) ]).
Proof.
  apply (JSON_parse_fuel 3 _ []); [|reflexivity].
  rewrite stringify_one_field.
  rewrite parse_value_S, value_step_object.
  rewrite parse_members_S, members_step_string.
  rewrite parse_value_S, value_step_string. reflexivity.
Qed.

Lemma parse_two_fields (k1 v1 k2 v2 : jstring) :
  JSON_parse (JSON_stringify (DObj [ (k1, DStr v1); (k2, DStr v2) ]))
  = Normal (VObj [ (k1, VStr v1); (k2, VStr v2) ]).
Proof.
  apply (JSON_parse_fuel 4 _ []); [|reflexivity].
  rewrite stringify_two_fields.
  rewrite parse_value_S, value_step_object.
  rewrite parse_members_S, members_step_string.
  rewrite parse_value_S, value_step_string.
  cbn [skip_ws]. change (is_json_ws 44) with false. cbn iota.
  change (44 =? 44) with true. cbn iota.
  rewrite parse_members_S, members_step_string.
  rewrite parse_value_S, value_step_string. reflexivity.
Qed.

End RoundTrip.

Section Extras.

Context {RT : Runtime}.

(** Every way an invocation can end, with the response it gives. *)
Lemma handler_outcomes (w : World) (ev : Event) (resp : Response)
      (log : list FetchRequest) :
  run (handler w ev) = (Normal resp, log) ->
  (httpMethod ev = js "OPTIONS" /\ statusCode resp = 204)
  \/ (httpMethod ev <> js "OPTIONS" /\ httpMethod ev <> js "POST" /\
      statusCode resp = 405)
  \/ (httpMethod ev = js "POST" /\ statusCode resp = 500)
  \/ (httpMethod ev = js "POST" /\ statusCode resp = 400 /\
      exists r, read_request ev = Normal r /\ text r = [])
  \/ (exists r req rsp d,
        request_sent w ev = Some (r, req) /\ network w req = Normal rsp /\
        ok rsp = false /\ resp_text rsp = Normal d /\ statusCode resp = 502)
  \/ (exists r req rsp,
        request_sent w ev = Some (r, req) /\ network w req = Normal rsp /\
        ok rsp = true /\ statusCode resp = 200).
Proof.
  intros Run.
  destruct (jstring_eqb (httpMethod ev) (js "OPTIONS")) eqn:O.
  { apply jstring_eqb_eq in O. rewrite (handler_options w ev O) in Run.
    inversion Run; subst. left. split; [exact O | reflexivity]. }
  destruct (jstring_eqb (httpMethod ev) (js "POST")) eqn:P.
  2:{ apply jstring_eqb_neq in O, P.
      rewrite (handler_other w ev O P) in Run.
      inversion Run; subst. right; left. repeat split; assumption. }
  apply jstring_eqb_eq in P. rewrite (handler_post w ev P) in Run.
  destruct (handler_try_cases w ev P)
    as [[e T] | [(r & R & Tx & T) | [(r & _ & _ & _ & T) | (r & req & S & T)]]];
    rewrite T in Run; cbn [fst snd caught] in Run;
    inversion Run; subst; clear Run.
  - right; right; left. split; [exact P | reflexivity].
  - right; right; right; left. repeat split; trivial. exists r. auto.
  - right; right; left. split; [exact P | reflexivity].
  - destruct (network w req) as [rsp|e] eqn:Net; cbn [cbind caught].
    2:{ right; right; left. split; [exact P | reflexivity]. }
    destruct (respond (text r) rsp) as [a|e] eqn:C; cbn [caught].
    2:{ right; right; left. split; [exact P | reflexivity]. }
    destruct (respond_cases (text r) rsp a C)
      as [(d & Ok & Tx & ->) | (data & f & i & Ok & _ & _ & ->)].
    + do 4 right. left. exists r, req, rsp, d. repeat split; trivial.
    + do 5 right. exists r, req, rsp. repeat split; trivial.
Qed.

(** The log of an invocation is empty or the one request sent. *)
Lemma handler_log_cases (w : World) (ev : Event) :
  snd (run (handler w ev)) = []
  \/ exists r req,
       request_sent w ev = Some (r, req) /\ snd (run (handler w ev)) = [req].
Proof.
  destruct (request_sent w ev) as [[r req]|] eqn:S.
  { right. exists r, req. split; [reflexivity|].
    rewrite (handler_sent w ev r req S). reflexivity. }
  left.
  destruct (jstring_eqb (httpMethod ev) (js "OPTIONS")) eqn:O.
  { apply jstring_eqb_eq in O. rewrite (handler_options w ev O). reflexivity. }
  destruct (jstring_eqb (httpMethod ev) (js "POST")) eqn:P.
  - apply jstring_eqb_eq in P. rewrite (handler_post w ev P).
    cbn [snd]. apply handler_try_not_sent; assumption.
  - apply jstring_eqb_neq in O, P. rewrite (handler_other w ev O P).
    reflexivity.
Qed.

(** X1.  The method gate is exact: the answer is 204 exactly for OPTIONS
    and 405 exactly for a method that is neither OPTIONS nor POST. *)
Theorem method_gate (w : World) (ev : Event) (resp : Response)
        (log : list FetchRequest) :
  run (handler w ev) = (Normal resp, log) ->
  (statusCode resp = 204 <-> httpMethod ev = js "OPTIONS")
  /\ (statusCode resp = 405 <->
      httpMethod ev <> js "OPTIONS" /\ httpMethod ev <> js "POST").
Proof.
  intros Run.
  assert (NP : js "POST" <> js "OPTIONS") by (apply jstring_eqb_neq; reflexivity).
  destruct (handler_outcomes w ev resp log Run)
    as [(O & St) | [(O & P & St) | [(P & St) | [(P & St & _) |
        [(r & req & rsp & d & S & _ & _ & _ & St) |
         (r & req & rsp & S & _ & _ & St)]]]]];
    try (destruct (request_sent_post w ev r req S) as (P & _));
    rewrite St; (split; split; intros H; try discriminate H; try tauto;
                 try congruence);
    try (destruct H as [H1 H2]; congruence).
Qed.

(** X2.  The handler calls [fetch] at most once, and exactly when the
    request is a POST that is read, has a text, finds the key set and
    yields a prompt; the log then holds that one request. *)
Theorem fetch_at_most_once (w : World) (ev : Event) :
  snd (run (handler w ev)) =
    match request_sent w ev with
    | Some (_, req) => [req]
    | None => []
    end.
Proof.
  destruct (request_sent w ev) as [[r req]|] eqn:S.
  { rewrite (handler_sent w ev r req S). reflexivity. }
  destruct (jstring_eqb (httpMethod ev) (js "OPTIONS")) eqn:O.
  { apply jstring_eqb_eq in O. rewrite (handler_options w ev O). reflexivity. }
  destruct (jstring_eqb (httpMethod ev) (js "POST")) eqn:P.
  - apply jstring_eqb_eq in P. rewrite (handler_post w ev P).
    cbn [snd]. apply handler_try_not_sent; assumption.
  - apply jstring_eqb_neq in O, P. rewrite (handler_other w ev O P).
    reflexivity.
Qed.

(** X3.  Whatever the event, every request the handler passes to [fetch]
    has the method POST, the JSON content type, the bearer token of the
    configured key, and as URL the configured base followed by
    [/v1/chat/completions], the base being [https://api.deepseek.com] when
    none is configured or it is empty. *)
Theorem upstream_target_fixed (w : World) (ev : Event) (req : FetchRequest) :
  In req (snd (run (handler w ev))) ->
  exists key,
    DEEPSEEK_API_KEY (env w) = Some key /\ key <> [] /\
    req_method req = js "POST" /\
    req_headers req =
      [ (js "Content-Type", js "application/json");
        (js "Authorization", js "Bearer " ++ key) ] /\
    ((exists base, DEEPSEEK_BASE_URL (env w) = Some base /\ base <> [] /\
        url req = base ++ js "/v1/chat/completions")
     \/ ((DEEPSEEK_BASE_URL (env w) = None \/
          DEEPSEEK_BASE_URL (env w) = Some []) /\
         url req = js "https://api.deepseek.com/v1/chat/completions")).
Proof.
  intros I.
  destruct (handler_log_cases w ev) as [E | (r & req0 & S & E)].
  { rewrite E in I. destruct I. }
  rewrite E in I. destruct I as [<-|[]].
  destruct (request_sent_request w ev r req0 S) as (key & user & K & Kn & _ & ->).
  exists key. repeat split; trivial.
  - cbn [req_headers chat_request cat List.concat]. rewrite app_nil_r.
    reflexivity.
  - cbn [url chat_request].
    destruct (DEEPSEEK_BASE_URL (env w)) as [[|c base]|].
    + right. split; [right; reflexivity | reflexivity].
    + left. exists (c :: base).
      split; [reflexivity|]. split; [discriminate|].
      cbn [env_or cat List.concat]. rewrite app_nil_r. reflexivity.
    + right. split; [left; reflexivity | reflexivity].
Qed.

(** X4.  When [fetch] rejects with [e] (a network failure), the handler
    answers 500 with [{error: "Server exception", details: String(e)}],
    having called [fetch] once. *)
Theorem fetch_rejected (w : World) (ev : Event) (r : Request)
        (req : FetchRequest) (e : Exn) :
  request_sent w ev = Some (r, req) ->
  network w req = Throw e ->
  run (handler w ev) =
    (Normal (json_response 500
               (DObj [ (js "error", DStr (js "Server exception"));
                       (js "details", DStr (Error_toString e)) ])),
     [req]).
Proof.
  intros S Net. rewrite (handler_sent w ev r req S), Net. reflexivity.
Qed.

(** X5.  When the upstream answers but reading its body rejects with [e],
    the handler answers the generic 500 with [String(e)], whether the
    status was a success or a failure. *)
Theorem upstream_body_unreadable (w : World) (ev : Event) (r : Request)
        (req : FetchRequest) (rsp : FetchResponse) (e : Exn) :
  request_sent w ev = Some (r, req) ->
  network w req = Normal rsp ->
  body_read rsp = Throw e ->
  run (handler w ev) =
    (Normal (json_response 500
               (DObj [ (js "error", DStr (js "Server exception"));
                       (js "details", DStr (Error_toString e)) ])),
     [req]).
Proof.
  intros S Net B. rewrite (handler_sent w ev r req S), Net.
  cbn [cbind]. unfold respond, resp_text, resp_json. rewrite B.
  destruct (ok rsp); reflexivity.
Qed.

(** X6.  When the upstream answers with a success status and a body that
    is not JSON, [resp.json()] rejects and the handler answers the generic
    500 with the rendering of that SyntaxError: the repair of lines 96-101
    covers the content, not the envelope. *)
Theorem upstream_body_not_json (w : World) (ev : Event) (r : Request)
        (req : FetchRequest) (rsp : FetchResponse) (t : jstring) (e : Exn) :
  request_sent w ev = Some (r, req) ->
  network w req = Normal rsp ->
  ok rsp = true ->
  body_read rsp = Normal t ->
  JSON_parse t = Throw e ->
  run (handler w ev) =
    (Normal (json_response 500
               (DObj [ (js "error", DStr (js "Server exception"));
                       (js "details", DStr (Error_toString e)) ])),
     [req]).
Proof.
  intros S Net Ok B J. rewrite (handler_sent w ev r req S), Net.
  cbn [cbind]. unfold respond, resp_json. rewrite Ok, B. cbn [negb cbind].
  rewrite J. reflexivity.
Qed.

(** X7.  A POST whose body is not JSON, or is the JSON [null], is answered
    with the generic 500 (the SyntaxError, or the TypeError of reading
    [text] of [null]) and nothing is sent upstream. *)
Theorem unreadable_request_body (w : World) (ev : Event) :
  httpMethod ev = js "POST" ->
  (forall e, parse_body ev = Throw e ->
     run (handler w ev) =
       (Normal (json_response 500
                  (DObj [ (js "error", DStr (js "Server exception"));
                          (js "details", DStr (Error_toString e)) ])), []))
  /\ (parse_body ev = Normal VNull ->
      run (handler w ev) =
        (Normal (json_response 500
                   (DObj [ (js "error", DStr (js "Server exception"));
                           (js "details",
                            DStr (Error_toString
                                    (TypeError_read_property VNull
                                       (js "text")))) ])), [])).
Proof.
  intros P. rewrite (handler_post w ev P). split.
  - intros e B.
    rewrite (handler_try_read_throws w ev e); [reflexivity|].
    unfold read_request. rewrite B. reflexivity.
  - intros B.
    rewrite (handler_try_read_throws w ev
               (TypeError_read_property VNull (js "text"))); [reflexivity|].
    unfold read_request. rewrite B. reflexivity.
Qed.

(** X8.  A status tells where the answer comes from: 200 only after an
    upstream response with a success status, 502 only after one with a
    failure status whose body was read, 400 only for a request that was
    read and has an empty trimmed text. *)
Theorem status_provenance (w : World) (ev : Event) (resp : Response)
        (log : list FetchRequest) :
  run (handler w ev) = (Normal resp, log) ->
  (statusCode resp = 200 ->
     exists r req rsp, request_sent w ev = Some (r, req) /\
       network w req = Normal rsp /\ ok rsp = true)
  /\ (statusCode resp = 502 ->
        exists r req rsp d, request_sent w ev = Some (r, req) /\
          network w req = Normal rsp /\ ok rsp = false /\
          resp_text rsp = Normal d)
  /\ (statusCode resp = 400 ->
        exists r, read_request ev = Normal r /\ text r = []).
Proof.
  intros Run.
  destruct (handler_outcomes w ev resp log Run)
    as [(O & St) | [(O & P & St) | [(P & St) | [(P & St & r & R & T) |
        [(r & req & rsp & d & S & Net & Ok & Tx & St) |
         (r & req & rsp & S & Net & Ok & St)]]]]];
    rewrite St; repeat split; intros H; try discriminate H.
  - exists r. auto.
  - exists r, req, rsp, d. auto.
  - exists r, req, rsp. auto.
Qed.

(** X9.  A POST whose body is read (it is not [null]) and whose [text] is
    absent or falsy, or a string of white space only, is answered 400
    [{error: "Missing text"}] when the template converts; this includes an
    absent or empty body and a body that is a JSON number, string, boolean
    or array.  Nothing is sent upstream. *)
Theorem missing_text_400 (w : World) (ev : Event) (b : Value) (tp : jstring) :
  httpMethod ev = js "POST" ->
  parse_body ev = Normal b ->
  b <> VNull ->
  (ToBoolean (Get_opt b (js "text")) = false
   \/ exists s, Get_opt b (js "text") = VStr s /\ trim s = []) ->
  string_or_empty (Get_opt b (js "template")) = Normal tp ->
  run (handler w ev) =
    (Normal (json_response 400
               (DObj [ (js "error", DStr (js "Missing text")) ])), []).
Proof.
  intros P B Nn T Tp.
  pose proof (parse_body_defined ev b B) as Nu.
  assert (R : read_request ev =
              Normal (mkRequest [] (or_else (Get_opt b (js "patient")) (VObj []))
                        tp)).
  { unfold read_request. rewrite B. cbn [cbind].
    rewrite !(Get_defined b _ Nn Nu). cbn [cbind].
    assert (Ts : cbind (string_or_empty (Get_opt b (js "text")))
                   (fun s => Normal (trim s)) = Normal []).
    { destruct T as [F | (s & E & Z)].
      - unfold string_or_empty. rewrite (or_else_falsy _ _ F). reflexivity.
      - rewrite E. unfold string_or_empty.
        destruct s as [|c s']; [reflexivity|].
        cbn [or_else ToBoolean call_toString ToString ToString_within cbind]. rewrite Z.
        reflexivity. }
    destruct (string_or_empty (Get_opt b (js "text"))) as [ts|e];
      cbn [cbind] in Ts |- *; [|discriminate Ts].
    inversion Ts as [Z]. rewrite Tp. cbn [cbind]. rewrite Z. reflexivity. }
  rewrite (handler_post w ev P), (handler_try_missing_text w ev _ R eq_refl).
  reflexivity.
Qed.

(** X10.  When the upstream call succeeds and the content is JSON for an
    object whose [findings] and [impression] are non-empty strings, the
    handler answers 200 with both trimmed, the findings being replaced by
    the input text when they trim to nothing. *)
Theorem parsed_report_trimmed (w : World) (ev : Event) (r : Request)
        (req : FetchRequest) (c : jstring) (o : list (jstring * Value))
        (f i : jstring) :
  request_sent w ev = Some (r, req) ->
  content_received w ev = Some (VStr c) ->
  JSON_parse c = Normal (VObj o) ->
  field o (js "findings") = VStr f -> f <> [] ->
  field o (js "impression") = VStr i -> i <> [] ->
  run (handler w ev) =
    (Normal (json_response 200
               (DObj [ (js "findings",
                        DStr (match trim f with
                              | [] => text r
                              | _ :: _ => trim f
                              end));
                       (js "impression", DStr (trim i)) ])),
     [req]).
Proof.
  intros S C J F Fn I In.
  rewrite (handler_content w ev r req _ S C).
  unfold parse_content. cbn [ToString ToString_within cbind]. rewrite J.
  unfold normalize. rewrite !pick_object, F, I.
  destruct f as [|x f']; [congruence|]. destruct i as [|y i']; [congruence|].
  reflexivity.
Qed.

(** X11.  When the upstream call succeeds and the content is JSON for a
    number, a string, a boolean or an array, no key is found on it and the
    handler answers 200 with the input text as findings and an empty
    impression. *)
Theorem scalar_content_degrades (w : World) (ev : Event) (r : Request)
        (req : FetchRequest) (c : jstring) (v : Value) :
  request_sent w ev = Some (r, req) ->
  content_received w ev = Some (VStr c) ->
  JSON_parse c = Normal v ->
  scalar_or_array v = true ->
  run (handler w ev) =
    (Normal (json_response 200
               (DObj [ (js "findings", DStr (text r));
                       (js "impression", DStr []) ])),
     [req]).
Proof.
  intros S C J V.
  rewrite (handler_content w ev r req _ S C).
  unfold parse_content. cbn [ToString ToString_within cbind]. rewrite J.
  destruct v; try discriminate V; reflexivity.
Qed.

(** X12.  When the upstream answers with a success status and a JSON body
    in which [choices[0].message.content] is missing or falsy, the content
    is the empty string and the handler answers 200 with the input text as
    findings and an empty impression. *)
Theorem missing_content_degrades (w : World) (ev : Event) (r : Request)
        (req : FetchRequest) (rsp : FetchResponse) (data : Value) :
  request_sent w ev = Some (r, req) ->
  network w req = Normal rsp ->
  ok rsp = true ->
  resp_json rsp = Normal data ->
  ToBoolean (Get_opt (Get_opt (Get_opt_index0 (Get_opt data (js "choices")))
                        (js "message")) (js "content")) = false ->
  run (handler w ev) =
    (Normal (json_response 200
               (DObj [ (js "findings", DStr (text r));
                       (js "impression", DStr []) ])),
     [req]).
Proof.
  intros S Net Ok Js F.
  destruct (request_sent_post w ev r req S) as (_ & R & T).
  rewrite (handler_sent w ev r req S), Net. cbn [cbind].
  unfold respond. rewrite Ok, Js. cbn [negb cbind].
  unfold extract_content. rewrite (or_else_falsy _ _ F).
  rewrite (normalize_unparsable (text r) [] (SyntaxError_JSON [])
             T (read_request_trimmed ev r R) eq_refl).
  reflexivity.
Qed.

(** X13.  Both fields of every 200 report are trimmed: trimming them again
    changes nothing. *)
Theorem report_fields_trimmed (w : World) (ev : Event) (resp : Response)
        (log : list FetchRequest) :
  run (handler w ev) = (Normal resp, log) ->
  statusCode resp = 200 ->
  exists findings impression,
    resp = json_response 200 (report_body findings impression) /\
    trim findings = findings /\ trim impression = impression.
Proof.
  intros Run St.
  destruct (handler_200_inv w ev resp log Run St)
    as (r & req & rsp & data & f & i & S & _ & _ & _ & _ & Nz & ->).
  destruct (request_sent_post w ev r req S) as (_ & R & _).
  exists f, i. split; [reflexivity|].
  unfold normalize in Nz.
  destruct (pick _ (js "findings") (js "FINDINGS")) as [x|e] eqn:Pf;
    cbn [cbind] in Nz; [|discriminate Nz].
  destruct (pick _ (js "impression") (js "IMPRESSION")) as [y|e] eqn:Pi;
    cbn [cbind] in Nz; [|discriminate Nz].
  inversion Nz; subst. split.
  - destruct x; [apply (read_request_trimmed ev r R) | apply (pick_trimmed _ _ _ _ Pf)].
  - apply (pick_trimmed _ _ _ _ Pi).
Qed.

(** X14.  Reading the request throws nothing but the SyntaxError of a body
    that is not JSON, the TypeError of reading [text] of a [null] body, the
    TypeError of a [toString] that is not a function, the TypeError of a
    value that has no primitive conversion, or the RangeError of arrays
    nested deeper than the call stack allows; building the prompt throws
    nothing but the last two. *)
Theorem request_exceptions (ev : Event) (e : Exn) :
  (read_request ev = Throw e ->
     parse_body ev = Throw e
     \/ (parse_body ev = Normal VNull /\
         e = TypeError_read_property VNull (js "text"))
     \/ e = TypeError_not_a_function (js "toString")
     \/ e = TypeError_to_primitive
     \/ e = RangeError_call_stack)
  /\ (forall r, read_request ev = Normal r -> user_prompt r = Throw e ->
        e = TypeError_to_primitive \/ e = RangeError_call_stack).
Proof.
  split.
  - unfold read_request.
    destruct (parse_body ev) as [b|e0] eqn:B; cbn [cbind].
    2:{ intros E; inversion E; auto. }
    pose proof (parse_body_defined ev b B) as Nu.
    assert (D : b = VNull \/ b <> VNull)
      by (destruct b; (left; reflexivity) || (right; discriminate)).
    destruct D as [->|Nn].
    { cbn [Get cbind]. intros E; inversion E; auto. }
    rewrite !(Get_defined b _ Nn Nu). cbn [cbind].
    destruct (string_or_empty (Get_opt b (js "text"))) as [ts|e1] eqn:Ts;
      cbn [cbind].
    2:{ intros E; inversion E; subst. right; right.
        apply (string_or_empty_throws _ _ Ts). }
    destruct (string_or_empty (Get_opt b (js "template"))) as [tps|e2] eqn:Tp;
      cbn [cbind]; [discriminate|].
    intros E; inversion E; subst. right; right.
    apply (string_or_empty_throws _ _ Tp).
  - intros r R.
    destruct (parse_body ev) as [b|e0] eqn:B;
      [|unfold read_request in R; rewrite B in R; discriminate R].
    destruct (read_request_fields ev b r B R) as (_ & Pt & _).
    unfold user_prompt, patient_field.
    assert (G : forall k, Get (patient r) k = Normal (Get_opt (patient r) k))
      by (intros k; apply Get_truthy; rewrite Pt; apply or_else_object).
    rewrite !G. cbn [cbind].
    repeat match goal with
           | |- cbind (ToString ?x) _ = _ -> _ =>
               let H := fresh "H" in
               destruct (ToString x) as [?|?] eqn:H; cbn [cbind];
               [| intros E; inversion E; subst; apply (ToString_throws _ _ H)]
           end.
    discriminate.
Qed.

(** X15.  A request as the handler's header comment expects it (an object
    whose [text] and [template] are strings or absent and whose [patient] is
    absent or an object with string or absent [name], [id] and [date]) is
    read without an exception, each absent field being the empty string and
    each string being kept, and its prompt is built from exactly these
    values. *)
Theorem expected_request_read (ev : Event) (o : list (jstring * Value)) :
  parse_body ev = Normal (VObj o) ->
  string_or_absent (field o (js "text")) = true ->
  string_or_absent (field o (js "template")) = true ->
  patient_as_expected (field o (js "patient")) = true ->
  let p := or_else (field o (js "patient")) (VObj []) in
  let r := mkRequest (trim (spec_default (field o (js "text")))) p
             (spec_default (field o (js "template"))) in
  read_request ev = Normal r
  /\ user_prompt r =
       Normal (join_strings [10]
                 (prompt_lines (template_or_NA (template r))
                    (spec_default (Get_opt p (js "name")))
                    (spec_default (Get_opt p (js "id")))
                    (spec_default (Get_opt p (js "date")))
                    (text r))).
Proof.
  intros B T Tp Pt p r. split.
  - unfold read_request. rewrite B. cbn [cbind]. rewrite !Get_object.
    cbn [cbind].
    rewrite (string_or_empty_plain _ T), (string_or_empty_plain _ Tp).
    reflexivity.
  - assert (F : forall k, In k [js "name"; js "id"; js "date"] ->
                patient_field p k = Normal (spec_default (Get_opt p k))).
    { intros k K. unfold patient_field, p.
      destruct (field o (js "patient")) as [| | | | | |po] eqn:E;
        try discriminate Pt.
      - destruct K as [<-|[<-|[<-|[]]]]; reflexivity.
      - cbn [or_else ToBoolean]. rewrite Get_object. cbn [cbind].
        unfold Get_opt. rewrite Get_object.
        cbn [patient_as_expected] in Pt.
        apply andb_prop in Pt. destruct Pt as [Pt Pd].
        apply andb_prop in Pt. destruct Pt as [Pn Pi].
        assert (Sk : string_or_absent (field po k) = true)
          by (destruct K as [<-|[<-|[<-|[]]]]; assumption).
        destruct (field po k) as [| | | | [|c s] | |];
          try discriminate Sk; reflexivity. }
    unfold user_prompt. cbn [patient text template r].
    rewrite !F by (simpl; auto). reflexivity.
Qed.

(** The shapes of the responses. *)
Lemma handler_response_forms (w : World) (ev : Event) (resp : Response)
      (log : list FetchRequest) :
  run (handler w ev) = (Normal resp, log) ->
  resp = mkResponse 204 corsHeaders []
  \/ (exists code msg,
        code <> 200 /\ code <> 204 /\
        In msg [ js "Method Not Allowed"; js "Missing text";
                 js "Server missing DEEPSEEK_API_KEY" ] /\
        resp = json_response code (error_body msg))
  \/ (exists code msg d,
        code <> 200 /\ code <> 204 /\
        In msg [ js "DeepSeek error"; js "Server exception" ] /\
        resp = json_response code (error_details_body msg d))
  \/ (exists f i, f <> [] /\ resp = json_response 200 (report_body f i)).
Proof.
  intros Run.
  assert (EX : forall e, exists code msg d,
             code <> 200 /\ code <> 204 /\
             In msg [ js "DeepSeek error"; js "Server exception" ] /\
             server_exception e = json_response code (error_details_body msg d)).
  { intros e. exists 500, (js "Server exception"), (Error_toString e).
    repeat split; try discriminate. right; left; reflexivity. }
  destruct (jstring_eqb (httpMethod ev) (js "OPTIONS")) eqn:O.
  { apply jstring_eqb_eq in O. rewrite (handler_options w ev O) in Run.
    inversion Run; subst. left. reflexivity. }
  destruct (jstring_eqb (httpMethod ev) (js "POST")) eqn:P.
  2:{ apply jstring_eqb_neq in O, P.
      rewrite (handler_other w ev O P) in Run.
      inversion Run; subst. right; left.
      exists 405, (js "Method Not Allowed").
      repeat split; try discriminate. left; reflexivity. }
  apply jstring_eqb_eq in P. rewrite (handler_post w ev P) in Run.
  destruct (handler_try_cases w ev P)
    as [[e T] | [(r & R & Tx & T) | [(r & _ & _ & _ & T) | (r & req & S & T)]]];
    rewrite T in Run; cbn [fst snd caught] in Run;
    inversion Run; subst; clear Run.
  - right; right; left. apply EX.
  - right; left. exists 400, (js "Missing text").
    repeat split; try discriminate. right; left; reflexivity.
  - right; left. exists 500, (js "Server missing DEEPSEEK_API_KEY").
    repeat split; try discriminate. right; right; left; reflexivity.
  - destruct (request_sent_post w ev r req S) as (_ & _ & Tn).
    destruct (network w req) as [rsp|e] eqn:Net; cbn [cbind caught].
    2:{ right; right; left. apply EX. }
    destruct (respond (text r) rsp) as [a|e] eqn:C; cbn [caught].
    2:{ right; right; left. apply EX. }
    destruct (respond_cases (text r) rsp a C)
      as [(d & _ & _ & ->) | (data & f & i & _ & _ & Nz & ->)].
    + right; right; left. exists 502, (js "DeepSeek error"), d.
      repeat split; try discriminate. left; reflexivity.
    + right; right; right. exists f, i. split; [|reflexivity].
      apply (normalize_findings_nonempty _ _ _ _ Tn Nz).
Qed.

(** X16.  The body of every response other than the preflight is JSON
    that [JSON.parse] reads back: for a 200, an object with exactly the
    string properties [findings], not empty, and [impression]; for any
    other status, an object whose [error] is one of the handler's five
    messages. *)
Theorem response_body_parses (w : World) (ev : Event) (resp : Response)
        (log : list FetchRequest) :
  run (handler w ev) = (Normal resp, log) ->
  (statusCode resp = 200 ->
     exists f i, f <> [] /\
       JSON_parse (body resp)
       = Normal (VObj [ (js "findings", VStr f); (js "impression", VStr i) ]))
  /\ (statusCode resp <> 200 -> statusCode resp <> 204 ->
        exists o msg,
          JSON_parse (body resp) = Normal (VObj o) /\
          field o (js "error") = VStr msg /\
          In msg [ js "Method Not Allowed"; js "Missing text";
                   js "Server missing DEEPSEEK_API_KEY";
                   js "DeepSeek error"; js "Server exception" ]).
Proof.
  intros Run.
  destruct (handler_response_forms w ev resp log Run)
    as [-> | [(code & msg & C2 & C4 & M & ->) |
              [(code & msg & d & C2 & C4 & M & ->) | (f & i & Fn & ->)]]];
    cbn [statusCode body json_response]; split; intros H; try congruence.
  - intros H4. exists [ (js "error", VStr msg) ], msg.
    split; [apply parse_one_field|]. split; [reflexivity|].
    simpl in M |- *. tauto.
  - intros H4. exists [ (js "error", VStr msg); (js "details", VStr d) ], msg.
    split; [apply parse_two_fields|]. split; [reflexivity|].
    simpl in M |- *. tauto.
  - exists f, i. split; [exact Fn | apply parse_two_fields].
Qed.

End Extras.

(* ================================================================== *)
(** ** The properties on concrete requests *)

#[local] Existing Instance Sample.runtime.

(** The other outcomes the specification lists. *)
Example method_not_allowed :
  run (handler Sample.unconfigured (mkEvent (js "GET") None))
  = (Normal (mkResponse 405 json_headers (jsq "{'error':'Method Not Allowed'}")),
     []).
Proof. vm_compute; reflexivity. Qed.

Example missing_text :
  run (handler Sample.rate_limited (Sample.post (jsq "{'text':''}")))
  = (Normal (mkResponse 400 json_headers (jsq "{'error':'Missing text'}")), [])
  /\ run (handler Sample.rate_limited (mkEvent (js "POST") None))
     = (Normal (mkResponse 400 json_headers (jsq "{'error':'Missing text'}")), []).
Proof. split; vm_compute; reflexivity. Qed.

Example malformed_body :
  run (handler Sample.rate_limited (Sample.post (js "{")))
  = (Normal (mkResponse 500 json_headers
               (jsq "{'error':'Server exception','details':'SyntaxError: Unexpected token in JSON'}")),
     []).
Proof. vm_compute; reflexivity. Qed.

Example network_failure :
  run (handler
         (mkWorld Sample.with_key
            (fun _ => Throw (FetchFailure (js "TypeError: fetch failed"))))
         Sample.umm_event)
  = (Normal (mkResponse 500 json_headers
               (jsq "{'error':'Server exception','details':'TypeError: fetch failed'}")),
     [Sample.umm_fetch]).
Proof. vm_compute; reflexivity. Qed.

(** Replies with uppercase keys, with falsy values, and with mixed-case
    keys. *)
Example uppercase_reply :
  run (handler
         (Sample.replying (jsq "{'FINDINGS':'  Normal. ','IMPRESSION':'ok'}"))
         Sample.umm_event)
  = (Normal (mkResponse 200 json_headers
               (jsq "{'findings':'Normal.','impression':'ok'}")),
     [Sample.umm_fetch]).
Proof. vm_compute; reflexivity. Qed.

Example falsy_reply :
  run (handler
         (Sample.replying
            (jsq "{'findings':false,'FINDINGS':'A','impression':0,'IMPRESSION':null}"))
         Sample.umm_event)
  = (Normal (mkResponse 200 json_headers
               (jsq "{'findings':'A','impression':''}")),
     [Sample.umm_fetch]).
Proof. vm_compute; reflexivity. Qed.

Example mixed_case_reply :
  run (handler
         (Sample.replying (jsq "{'Findings':'A','Impression':'B'}"))
         Sample.umm_event)
  = (Normal (mkResponse 200 json_headers
               (jsq "{'findings':'umm tooth 14 looks ok','impression':''}")),
     [Sample.umm_fetch]).
Proof. vm_compute; reflexivity. Qed.

(** C6 on the spec's example: the upstream answers 500 with the body
    "rate limited". *)
Lemma upstream_failure_502_witness :
  request_sent Sample.rate_limited Sample.umm_event
    = Some (Sample.umm_request, Sample.umm_fetch)
  /\ network Sample.rate_limited Sample.umm_fetch
     = Normal (mkFetchResponse 500 (Normal (js "rate limited")))
  /\ run (handler Sample.rate_limited Sample.umm_event)
     = (Normal (mkResponse 502 json_headers
                  (jsq "{'error':'DeepSeek error','details':'rate limited'}")),
        [Sample.umm_fetch]).
Proof.
  split; [vm_compute; reflexivity|]. split; [reflexivity|].
  apply (upstream_failure_502 Sample.rate_limited Sample.umm_event
           Sample.umm_request Sample.umm_fetch
           (mkFetchResponse 500 (Normal (js "rate limited")))
           (js "rate limited"));
    vm_compute; reflexivity.
Defined.

(** C1 on the spec's example of a successful polish. *)
Lemma findings_never_empty_witness :
  run (handler
         (Sample.replying
            (jsq "{'findings':'Normal exam.','impression':'No caries.'}"))
         Sample.umm_event)
    = (Normal (mkResponse 200 json_headers
                 (jsq "{'findings':'Normal exam.','impression':'No caries.'}")),
       [Sample.umm_fetch])
  /\ exists t findings impression,
       httpMethod Sample.umm_event = js "POST" /\
       request_text Sample.umm_event = Normal t /\ t <> [] /\
       jsq "{'findings':'Normal exam.','impression':'No caries.'}"
         = JSON_stringify (report_body findings impression) /\
       findings <> [].
Proof.
  assert (R : run (handler
                     (Sample.replying
                        (jsq "{'findings':'Normal exam.','impression':'No caries.'}"))
                     Sample.umm_event)
              = (Normal (mkResponse 200 json_headers
                           (jsq "{'findings':'Normal exam.','impression':'No caries.'}")),
                 [Sample.umm_fetch]))
    by (vm_compute; reflexivity).
  split; [exact R|].
  exact (findings_never_empty _ _ _ _ R eq_refl).
Defined.

(** C2, as stated, fails on a reply that is only white space: it is not
    the empty string and does not parse, yet the findings are the input
    text and not the reply trimmed. *)
Lemma whitespace_content_counterexample :
  request_sent (Sample.replying (js " ")) Sample.umm_event
    = Some (Sample.umm_request, Sample.umm_fetch)
  /\ content_received (Sample.replying (js " ")) Sample.umm_event
     = Some (VStr (js " "))
  /\ JSON_parse (js " ") = Throw (SyntaxError_JSON (js " "))
  /\ js " " <> []
  /\ trim (js " ") = []
  /\ run (handler (Sample.replying (js " ")) Sample.umm_event)
     = (Normal (mkResponse 200 json_headers
                  (jsq "{'findings':'umm tooth 14 looks ok','impression':''}")),
        [Sample.umm_fetch])
  /\ run (handler (Sample.replying (js " ")) Sample.umm_event)
     <> (Normal (json_response 200 (report_body (trim (js " ")) [])),
         [Sample.umm_fetch]).
Proof.
  repeat split; try (vm_compute; reflexivity); vm_compute; discriminate.
Qed.

(** The amended C2 on that reply, and on a reply in prose. *)
Lemma unparsable_content_fallback_witness :
  run (handler (Sample.replying (js " ")) Sample.umm_event)
    = (Normal (json_response 200
                 (report_body Sample.umm [])), [Sample.umm_fetch])
  /\ run (handler (Sample.replying (js "  Normal exam. ")) Sample.umm_event)
     = (Normal (json_response 200
                  (report_body (js "Normal exam.") [])), [Sample.umm_fetch]).
Proof.
  split.
  - apply (unparsable_content_fallback (Sample.replying (js " "))
             Sample.umm_event Sample.umm_request Sample.umm_fetch (js " ")
             (SyntaxError_JSON (js " ")));
      vm_compute; reflexivity.
  - apply (unparsable_content_fallback (Sample.replying (js "  Normal exam. "))
             Sample.umm_event Sample.umm_request Sample.umm_fetch
             (js "  Normal exam. ")
             (SyntaxError_JSON (js "  Normal exam. ")));
      vm_compute; reflexivity.
Defined.

(** C9 on the reply [null]. *)
Lemma null_content_server_exception_witness :
  request_sent (Sample.replying (js "null")) Sample.umm_event
    = Some (Sample.umm_request, Sample.umm_fetch)
  /\ content_received (Sample.replying (js "null")) Sample.umm_event
     = Some (VStr (js "null"))
  /\ JSON_parse (js "null") = Normal VNull
  /\ run (handler (Sample.replying (js "null")) Sample.umm_event)
     = (Normal (json_response 500
                  (error_details_body (js "Server exception")
                     (js "TypeError: Cannot read properties of null (reading 'findings')"))),
        [Sample.umm_fetch]).
Proof.
  split; [vm_compute; reflexivity|]. split; [vm_compute; reflexivity|].
  split; [vm_compute; reflexivity|].
  refine (eq_trans
            (null_content_server_exception (Sample.replying (js "null"))
               Sample.umm_event Sample.umm_request Sample.umm_fetch (js "null")
               _ _ _) _);
    vm_compute; reflexivity.
Defined.

(** C5, as stated, fails on a request whose template is an object with an
    own [toString]: the text is read (empty in the first request, [x] in
    the second), converting the template throws, and the answer is the
    generic 500, neither the 400 nor the missing-key 500. *)
Lemma odd_template_counterexample :
  httpMethod Sample.odd_template_event = js "POST"
  /\ request_text Sample.odd_template_event = Normal []
  /\ run (handler Sample.unconfigured Sample.odd_template_event)
     = (Normal (json_response 500
                  (error_details_body (js "Server exception")
                     (js "TypeError: toString is not a function"))), [])
  /\ run (handler Sample.unconfigured Sample.odd_template_event)
     <> (Normal (json_response 400 (error_body (js "Missing text"))), [])
  /\ httpMethod Sample.odd_template_text_event = js "POST"
  /\ request_text Sample.odd_template_text_event = Normal (js "x")
  /\ key_unset (env Sample.unconfigured) = true
  /\ run (handler Sample.unconfigured Sample.odd_template_text_event)
     = (Normal (json_response 500
                  (error_details_body (js "Server exception")
                     (js "TypeError: toString is not a function"))), [])
  /\ run (handler Sample.unconfigured Sample.odd_template_text_event)
     <> (Normal (json_response 500
                   (error_body (js "Server missing DEEPSEEK_API_KEY"))), []).
Proof.
  repeat split; try (vm_compute; reflexivity); vm_compute; discriminate.
Qed.

(** The amended C5 on a blank text and on the spec's example, both without
    the key. *)
Lemma validation_before_key_check_witness :
  (httpMethod Sample.blank_text_event = js "POST"
   /\ read_request Sample.blank_text_event = Normal (mkRequest [] (VObj []) [])
   /\ run (handler Sample.unconfigured Sample.blank_text_event)
      = (Normal (mkResponse 400 json_headers (jsq "{'error':'Missing text'}")),
         []))
  /\ (httpMethod Sample.umm_event = js "POST"
      /\ read_request Sample.umm_event = Normal Sample.umm_request
      /\ run (handler Sample.unconfigured Sample.umm_event)
         = (Normal (mkResponse 500 json_headers
                      (jsq "{'error':'Server missing DEEPSEEK_API_KEY'}")),
            [])).
Proof.
  split; (split; [reflexivity|]); (split; [vm_compute; reflexivity|]).
  - refine (eq_trans
              (proj1 (validation_before_key_check Sample.unconfigured
                        Sample.blank_text_event (mkRequest [] (VObj []) [])
                        _ _) _) _);
      vm_compute; reflexivity.
  - refine (eq_trans
              (proj2 (validation_before_key_check Sample.unconfigured
                        Sample.umm_event Sample.umm_request _ _) _ _) _);
      try (vm_compute; reflexivity).
    vm_compute; discriminate.
Defined.



(* ================================================================== *)
(** ** The further properties on concrete requests *)

(** X1 on a GET. *)
Lemma method_gate_witness :
  run (handler Sample.unconfigured (mkEvent (js "GET") None))
    = (Normal (mkResponse 405 json_headers
                 (jsq "{'error':'Method Not Allowed'}")), [])
  /\ (405 = 405 <->
      js "GET" <> js "OPTIONS" /\ js "GET" <> js "POST").
Proof.
  assert (R : run (handler Sample.unconfigured (mkEvent (js "GET") None))
              = (Normal (mkResponse 405 json_headers
                           (jsq "{'error':'Method Not Allowed'}")), []))
    by (vm_compute; reflexivity).
  split; [exact R|].
  exact (proj2 (method_gate _ _ _ _ R)).
Defined.

(** X3 on the spec's example, the base URL being unset. *)
Lemma upstream_target_fixed_witness :
  run (handler Sample.rate_limited Sample.umm_event)
    = (Normal (mkResponse 502 json_headers
                 (jsq "{'error':'DeepSeek error','details':'rate limited'}")),
       [Sample.umm_fetch])
  /\ url Sample.umm_fetch = js "https://api.deepseek.com/v1/chat/completions"
  /\ req_headers Sample.umm_fetch
     = [ (js "Content-Type", js "application/json");
         (js "Authorization", js "Bearer sk-test") ].
Proof.
  assert (R : run (handler Sample.rate_limited Sample.umm_event)
              = (Normal (mkResponse 502 json_headers
                           (jsq "{'error':'DeepSeek error','details':'rate limited'}")),
                 [Sample.umm_fetch]))
    by (vm_compute; reflexivity).
  split; [exact R|].
  assert (I : In Sample.umm_fetch
                (snd (run (handler Sample.rate_limited Sample.umm_event))))
    by (rewrite R; left; reflexivity).
  destruct (upstream_target_fixed _ _ _ I) as (key & K & _ & _ & H & U).
  split.
  - destruct U as [(base & B & _) | (_ & U)]; [discriminate B | exact U].
  - refine (eq_trans H _). inversion K. vm_compute; reflexivity.
Defined.

(** X4 on a rejected [fetch]. *)
Lemma fetch_rejected_witness :
  request_sent Sample.offline Sample.umm_event
    = Some (Sample.umm_request, Sample.umm_fetch)
  /\ run (handler Sample.offline Sample.umm_event)
     = (Normal (mkResponse 500 json_headers
                  (jsq "{'error':'Server exception','details':'TypeError: fetch failed'}")),
        [Sample.umm_fetch]).
Proof.
  split; [vm_compute; reflexivity|].
  refine (eq_trans
            (fetch_rejected Sample.offline Sample.umm_event Sample.umm_request
               Sample.umm_fetch (FetchFailure (js "TypeError: fetch failed"))
               _ _) _);
    vm_compute; reflexivity.
Defined.

(** X5 on a connection dropped after the status line. *)
Lemma upstream_body_unreadable_witness :
  request_sent Sample.dropping Sample.umm_event
    = Some (Sample.umm_request, Sample.umm_fetch)
  /\ run (handler Sample.dropping Sample.umm_event)
     = (Normal (mkResponse 500 json_headers
                  (jsq "{'error':'Server exception','details':'TypeError: terminated'}")),
        [Sample.umm_fetch]).
Proof.
  split; [vm_compute; reflexivity|].
  refine (eq_trans
            (upstream_body_unreadable Sample.dropping Sample.umm_event
               Sample.umm_request Sample.umm_fetch
               (mkFetchResponse 200
                  (Throw (FetchFailure (js "TypeError: terminated"))))
               (FetchFailure (js "TypeError: terminated")) _ _ _) _);
    vm_compute; reflexivity.
Defined.

(** X6 on an upstream that answers 200 with a page of HTML. *)
Lemma upstream_body_not_json_witness :
  request_sent Sample.not_json Sample.umm_event
    = Some (Sample.umm_request, Sample.umm_fetch)
  /\ JSON_parse (js "<html>") = Throw (SyntaxError_JSON (js "<html>"))
  /\ run (handler Sample.not_json Sample.umm_event)
     = (Normal (mkResponse 500 json_headers
                  (jsq "{'error':'Server exception','details':'SyntaxError: Unexpected token in JSON'}")),
        [Sample.umm_fetch]).
Proof.
  split; [vm_compute; reflexivity|]. split; [vm_compute; reflexivity|].
  refine (eq_trans
            (upstream_body_not_json Sample.not_json Sample.umm_event
               Sample.umm_request Sample.umm_fetch
               (mkFetchResponse 200 (Normal (js "<html>"))) (js "<html>")
               (SyntaxError_JSON (js "<html>")) _ _ _ _ _) _);
    vm_compute; reflexivity.
Defined.

(** X7 on a truncated body and on the body [null]. *)
Lemma unreadable_request_body_witness :
  run (handler Sample.rate_limited (Sample.post (js "{")))
    = (Normal (mkResponse 500 json_headers
                 (jsq "{'error':'Server exception','details':'SyntaxError: Unexpected token in JSON'}")),
       [])
  /\ run (handler Sample.rate_limited (Sample.post (js "null")))
     = (Normal (json_response 500
                  (error_details_body (js "Server exception")
                     (js "TypeError: Cannot read properties of null (reading 'text')"))),
        []).
Proof.
  split.
  - refine (eq_trans
              (proj1 (unreadable_request_body Sample.rate_limited
                        (Sample.post (js "{")) _)
                 (SyntaxError_JSON (js "{")) _) _);
      vm_compute; reflexivity.
  - refine (eq_trans
              (proj2 (unreadable_request_body Sample.rate_limited
                        (Sample.post (js "null")) _) _) _);
      vm_compute; reflexivity.
Defined.

(** X8 on the spec's example of an upstream failure. *)
Lemma status_provenance_witness :
  run (handler Sample.rate_limited Sample.umm_event)
    = (Normal (mkResponse 502 json_headers
                 (jsq "{'error':'DeepSeek error','details':'rate limited'}")),
       [Sample.umm_fetch])
  /\ exists r req rsp d,
       request_sent Sample.rate_limited Sample.umm_event = Some (r, req) /\
       network Sample.rate_limited req = Normal rsp /\ ok rsp = false /\
       resp_text rsp = Normal d.
Proof.
  assert (R : run (handler Sample.rate_limited Sample.umm_event)
              = (Normal (mkResponse 502 json_headers
                           (jsq "{'error':'DeepSeek error','details':'rate limited'}")),
                 [Sample.umm_fetch]))
    by (vm_compute; reflexivity).
  split; [exact R|].
  exact (proj1 (proj2 (status_provenance _ _ _ _ R)) eq_refl).
Defined.

(** X9 on a text of blanks and on a body that is a JSON array. *)
Lemma missing_text_400_witness :
  run (handler Sample.unconfigured Sample.blank_text_event)
    = (Normal (mkResponse 400 json_headers (jsq "{'error':'Missing text'}")), [])
  /\ run (handler Sample.unconfigured (Sample.post (js "[1]")))
     = (Normal (mkResponse 400 json_headers (jsq "{'error':'Missing text'}")), []).
Proof.
  split.
  - refine (eq_trans
              (missing_text_400 Sample.unconfigured Sample.blank_text_event
                 (VObj [ (js "text", VStr (js "   ")) ]) [] _ _ _
                 (or_intror (ex_intro _ (js "   ") (conj _ _))) _) _);
      try (vm_compute; reflexivity). discriminate.
  - refine (eq_trans
              (missing_text_400 Sample.unconfigured (Sample.post (js "[1]"))
                 (VArr [ VNum (mkNum false 1 0) ]) [] _ _ _
                 (or_introl _) _) _);
      try (vm_compute; reflexivity). discriminate.
Defined.

(** X10 and X13 on the spec's example of a reply. *)
Lemma parsed_report_trimmed_witness :
  request_sent (Sample.replying Sample.normal_exam) Sample.umm_event
    = Some (Sample.umm_request, Sample.umm_fetch)
  /\ JSON_parse Sample.normal_exam
     = Normal (VObj [ (js "findings", VStr (js "Normal exam."));
                      (js "impression", VStr (js "No caries.")) ])
  /\ run (handler (Sample.replying Sample.normal_exam) Sample.umm_event)
     = (Normal Sample.normal_exam_response, [Sample.umm_fetch]).
Proof.
  split; [vm_compute; reflexivity|]. split; [vm_compute; reflexivity|].
  refine (eq_trans
            (parsed_report_trimmed (Sample.replying Sample.normal_exam)
               Sample.umm_event Sample.umm_request Sample.umm_fetch
               Sample.normal_exam
               [ (js "findings", VStr (js "Normal exam."));
                 (js "impression", VStr (js "No caries.")) ]
               (js "Normal exam.") (js "No caries.") _ _ _ _ _ _ _) _);
    try (vm_compute; reflexivity); discriminate.
Defined.

Lemma report_fields_trimmed_witness :
  run (handler (Sample.replying Sample.normal_exam) Sample.umm_event)
    = (Normal Sample.normal_exam_response, [Sample.umm_fetch])
  /\ exists findings impression,
       Sample.normal_exam_response
         = json_response 200 (report_body findings impression) /\
       trim findings = findings /\ trim impression = impression.
Proof.
  assert (R : run (handler (Sample.replying Sample.normal_exam) Sample.umm_event)
              = (Normal Sample.normal_exam_response, [Sample.umm_fetch]))
    by (vm_compute; reflexivity).
  split; [exact R|].
  exact (report_fields_trimmed _ _ _ _ R eq_refl).
Defined.

(** X11 on the reply [true]. *)
Lemma scalar_content_degrades_witness :
  content_received (Sample.replying (js "true")) Sample.umm_event
    = Some (VStr (js "true"))
  /\ JSON_parse (js "true") = Normal (VBool true)
  /\ run (handler (Sample.replying (js "true")) Sample.umm_event)
     = (Normal (mkResponse 200 json_headers
                  (jsq "{'findings':'umm tooth 14 looks ok','impression':''}")),
        [Sample.umm_fetch]).
Proof.
  split; [vm_compute; reflexivity|]. split; [vm_compute; reflexivity|].
  refine (eq_trans
            (scalar_content_degrades (Sample.replying (js "true"))
               Sample.umm_event Sample.umm_request Sample.umm_fetch
               (js "true") (VBool true) _ _ _ _) _);
    vm_compute; reflexivity.
Defined.

(** X12 on an upstream body without [choices]. *)
Lemma missing_content_degrades_witness :
  resp_json (mkFetchResponse 200 (Normal (js "{}"))) = Normal (VObj [])
  /\ run (handler Sample.no_choices Sample.umm_event)
     = (Normal (mkResponse 200 json_headers
                  (jsq "{'findings':'umm tooth 14 looks ok','impression':''}")),
        [Sample.umm_fetch]).
Proof.
  split; [vm_compute; reflexivity|].
  refine (eq_trans
            (missing_content_degrades Sample.no_choices Sample.umm_event
               Sample.umm_request Sample.umm_fetch
               (mkFetchResponse 200 (Normal (js "{}"))) (VObj [])
               _ _ _ _ _) _);
    vm_compute; reflexivity.
Defined.

(** X15 on a request with every optional field a string. *)
Lemma expected_request_read_witness :
  parse_body Sample.full_event = Normal (VObj Sample.full_fields)
  /\ read_request Sample.full_event
     = Normal (mkRequest (js "tooth 14 ok")
                 (VObj [ (js "name", VStr (js "A. B.")); (js "id", VStr (js "7")) ])
                 (js "CBCT"))
  /\ user_prompt
       (mkRequest (js "tooth 14 ok")
          (VObj [ (js "name", VStr (js "A. B.")); (js "id", VStr (js "7")) ])
          (js "CBCT"))
     = Normal (join_strings [10]
                 (prompt_lines (js "CBCT") (js "A. B.") (js "7") []
                    (js "tooth 14 ok"))).
Proof.
  assert (B : parse_body Sample.full_event = Normal (VObj Sample.full_fields))
    by (vm_compute; reflexivity).
  split; [exact B|].
  destruct (expected_request_read Sample.full_event Sample.full_fields B
              eq_refl eq_refl eq_refl) as [R U].
  split.
  - refine (eq_trans R _). vm_compute; reflexivity.
  - refine (eq_trans _ (eq_trans U _)); vm_compute; reflexivity.
Defined.

(** X16 on the spec's example of a reply. *)
Lemma response_body_parses_witness :
  run (handler (Sample.replying Sample.normal_exam) Sample.umm_event)
    = (Normal Sample.normal_exam_response, [Sample.umm_fetch])
  /\ exists f i, f <> [] /\
       JSON_parse Sample.normal_exam
       = Normal (VObj [ (js "findings", VStr f); (js "impression", VStr i) ]).
Proof.
  assert (R : run (handler (Sample.replying Sample.normal_exam) Sample.umm_event)
              = (Normal Sample.normal_exam_response, [Sample.umm_fetch]))
    by (vm_compute; reflexivity).
  split; [exact R|].
  exact (proj1 (response_body_parses _ _ _ _ R) eq_refl).
Defined.

(** C3 on a reply with an uppercase key, a lowercase key and a mixed-case
    key, and on a reply with mixed-case keys only. *)
Lemma normalize_key_variants_witness :
  JSON_parse (jsq "{'FINDINGS':'  A  ','impression':' B ','Findings':'x'}")
    = Normal (VObj Sample.upper_reply)
  /\ normalize (VObj Sample.upper_reply) Sample.umm
     = Normal (js "A", js "B")
  /\ (exists out, trimmed_from (js "  A  ") out /\
        js "A" = match out with [] => Sample.umm | _ :: _ => out end)
  /\ trimmed_from (js " B ") (js "B")
  /\ normalize (VObj Sample.mixed_reply) Sample.umm = Normal (Sample.umm, []).
Proof.
  assert (N1 : normalize (VObj Sample.upper_reply) Sample.umm
               = Normal (js "A", js "B")) by (vm_compute; reflexivity).
  assert (N2 : normalize (VObj Sample.mixed_reply) Sample.umm
               = Normal (Sample.umm, [])) by (vm_compute; reflexivity).
  destruct (normalize_key_variants _ _ _ _ N1) as (_ & U & L & _).
  split; [vm_compute; reflexivity|]. split; [exact N1|].
  split; [|split; [|exact N2]].
  - apply (U (js "  A  ")).
    + discriminate.
    + apply lookup_none. vm_compute; reflexivity.
    + apply lookup_some. vm_compute; reflexivity.
  - apply (L (js " B ")).
    + discriminate.
    + apply lookup_some. vm_compute; reflexivity.
Defined.

(** C10 on a reply whose [findings] is [false] and whose [impression] is
    [0]. *)
Lemma falsy_value_as_absent_witness :
  JSON_parse (jsq "{'findings':false,'FINDINGS':' A ','impression':0}")
    = Normal (VObj Sample.falsy_reply)
  /\ normalize (VObj Sample.falsy_reply) Sample.umm = Normal (js "A", [])
  /\ (exists out, trimmed_from (js " A ") out /\
        js "A" = match out with [] => Sample.umm | _ :: _ => out end)
  /\ normalize (VObj [ (js "FINDINGS", VStr (js " A ")) ]) Sample.umm
     = Normal (js "A", []).
Proof.
  assert (N : normalize (VObj Sample.falsy_reply) Sample.umm
              = Normal (js "A", [])) by (vm_compute; reflexivity).
  split; [vm_compute; reflexivity|]. split; [exact N|].
  destruct (falsy_value_as_absent _ _ _ _ (VBool false) N eq_refl)
    as (F & _).
  assert (H : has_property Sample.falsy_reply (js "findings") (VBool false))
    by (apply lookup_some; vm_compute; reflexivity).
  destruct (F H) as (U & _ & _ & _).
  destruct (falsy_value_as_absent _ _ _ _ (VNum (mkNum false 0 0)) N eq_refl)
    as (_ & I & _).
  assert (H' : has_property Sample.falsy_reply (js "impression")
                 (VNum (mkNum false 0 0)))
    by (apply lookup_some; vm_compute; reflexivity).
  destruct (I H') as (_ & _ & _ & A).
  split.
  - apply (U (js " A ")); [discriminate|].
    apply lookup_some. vm_compute; reflexivity.
  - refine (eq_trans _ (eq_trans
              (A [ (js "findings", VBool false); (js "FINDINGS", VStr (js " A ")) ]
                 _ _) _)); try (vm_compute; reflexivity).
    + apply lookup_none. vm_compute; reflexivity.
    + intros k x Kn. split; intros P; apply lookup_some; apply lookup_some in P;
        revert P; unfold Sample.falsy_reply; cbn [lookup];
        destruct (jstring_eqb (js "impression") k) eqn:E;
        try (apply jstring_eqb_eq in E; congruence);
        intros P; exact P.
Defined.

(** With a call stack of one level, a text nested two arrays deep ends in
    the generic 500. *)
Example deep_text_range_error :
  run (@handler Sample.shallow Sample.rate_limited
         (Sample.post (jsq "{'text':[[1]]}")))
  = (Normal (@json_response Sample.shallow 500
               (error_details_body (js "Server exception")
                  (js "RangeError: Maximum call stack size exceeded"))), []).
Proof. vm_compute; reflexivity. Qed.
